(** * nanomongo: schema composition, construction and validation of documents

    A shallow embedding of [nanomongo/document.py]: the schema registry
    [Nanomongo], the metaclass [DocumentMeta] that builds one registry per
    declared record type, and [BaseDocument] (construction, [validate_all],
    [save]).  Python dictionaries are association lists in insertion order;
    the field mappings of the registries live in a store of mutable cells so
    that sharing between a parent type and its subtypes is visible; calls to
    field validators and to the external collection are recorded in a
    trace. *)

From Stdlib Require Import String Ascii List ZArith Bool Arith Lia.
From Stdlib Require Import Sorted Permutation.
Import ListNotations.
Open Scope string_scope.
Open Scope list_scope.

Set Warnings "-register-all".

(** ** Python values *)

(** The values that flow through documents, keyword arguments and storage
    coordinates.  [VObject] is an opaque external object (a client);
    [VGetItem o k] is the external object obtained as [o[k]]. *)
Inductive pyval : Type :=
| VNone
| VBool (b : bool)
| VInt (z : Z)
| VStr (s : string)
| VList (l : list pyval)
| VDict (d : list (string * pyval))
| VCallable (f : unit -> pyval)
| VObject (id : nat)
| VGetItem (o k : pyval).

(** Python truthiness ([not x] is [negb (truthy x)]). *)
Definition truthy (v : pyval) : bool :=
  match v with
  | VNone => false
  | VBool b => b
  | VInt z => negb (Z.eqb z 0)
  | VStr s => negb (String.eqb s "")
  | VList l => match l with [] => false | _ => true end
  | VDict d => match d with [] => false | _ => true end
  | VCallable _ => true
  | VObject _ => true
  | VGetItem _ _ => true
  end.

Definition callable (v : pyval) : bool :=
  match v with VCallable _ => true | _ => false end.

Definition isinstance_str (v : pyval) : bool :=
  match v with VStr _ => true | _ => false end.

Definition isinstance_dict (v : pyval) : bool :=
  match v with VDict _ => true | _ => false end.

(** [str.lower()] on a string of ASCII characters: the letters A to Z are
    lowered, every other byte is left as it is.  (On other strings Python
    lowers more; the declarations below take [str.lower] as a parameter,
    and this function stands for it where the names are ASCII.) *)
Definition lower_ascii (c : ascii) : ascii :=
  let n := nat_of_ascii c in
  if Nat.leb 65 n && Nat.leb n 90 then ascii_of_nat (n + 32) else c.

Fixpoint lower (s : string) : string :=
  match s with
  | EmptyString => EmptyString
  | String c r => String (lower_ascii c) (lower r)
  end.

(** ** Dictionaries *)

(** A [dict] keeps its items in insertion order; [dict_set] overwrites the
    value of a key that is present and appends a new key at the end. *)
Definition dict (A : Type) : Type := list (string * A).

Fixpoint dict_get {A} (k : string) (d : dict A) : option A :=
  match d with
  | [] => None
  | (k', v) :: r => if String.eqb k k' then Some v else dict_get k r
  end.

Definition dict_has {A} (k : string) (d : dict A) : bool :=
  match dict_get k d with Some _ => true | None => false end.

Fixpoint dict_set {A} (k : string) (v : A) (d : dict A) : dict A :=
  match d with
  | [] => [(k, v)]
  | (k', v') :: r =>
      if String.eqb k k' then (k, v) :: r else (k', v') :: dict_set k v r
  end.

Definition keys {A} (d : dict A) : list string := map fst d.

(** [d.update(src)] *)
Definition dict_update {A} (d src : dict A) : dict A :=
  fold_left (fun acc kv => dict_set (fst kv) (snd kv) acc) src d.

(** [del d[k]] for a key that is present. *)
Definition dict_del {A} (k : string) (d : dict A) : dict A :=
  filter (fun kv => negb (String.eqb k (fst kv))) d.

(** A list of items is a well-formed dictionary when no key repeats. *)
Definition dict_wf {A} (d : dict A) : Prop := NoDup (keys d).

(** Decidable form of [dict_wf]. *)
Fixpoint nodupb (l : list string) : bool :=
  match l with
  | [] => true
  | x :: r => negb (existsb (String.eqb x) r) && nodupb r
  end.

Definition dict_wfb {A} (d : dict A) : bool := nodupb (keys d).

(** Number of items stored under key [k]. *)
Definition count_key {A} (k : string) (d : dict A) : nat :=
  length (filter (fun kv => String.eqb k (fst kv)) d).

(** [sorted(l)] on strings, which Python orders by code point: each element
    is inserted before the first one that is not smaller. *)
Fixpoint insert_sorted (x : string) (l : list string) : list string :=
  match l with
  | [] => [x]
  | y :: r => if String.leb x y then x :: l else y :: insert_sorted x r
  end.

Fixpoint sorted (l : list string) : list string :=
  match l with
  | [] => []
  | x :: r => insert_sorted x (sorted r)
  end.

(** The order of [sorted]. *)
Definition str_le (a b : string) : Prop := String.leb a b = true.

(** ** Exceptions and results *)

Inductive validation_msg : Type :=
| ExtraField (field : string) (value : pyval)
    (* 'extra field "%s" with value "%s"' *)
| RequiredMissing (field : string)
    (* 'required field "%s" missing' *)
| Rejected (detail : string).
    (* raised by a field's validator *)

(** The exception classes.  [UnknownFieldError] is the class the
    specification's taxonomy names for a failed schema lookup; document.py
    imports only [ValidationError], [ExtraFieldError] and
    [ConfigurationError] and no path below raises it. *)
Inductive exn : Type :=
| TypeError (msg : string)
| KeyError (key : string)
| ConfigurationError (msg : string)
| ExtraFieldError (field : string) (value : pyval) (cls : string)
    (* 'Undefined field %s=%s in %s' *)
| ValidationError (m : validation_msg)
| UnknownFieldError (field : string)
| AttributeError (attribute : string).

Inductive result (A : Type) : Type :=
| Ok (a : A)
| Raise (e : exn).
Arguments Ok {A} a.
Arguments Raise {A} e.

Definition rbind {A B} (r : result A) (f : A -> result B) : result B :=
  match r with Ok a => f a | Raise e => Raise e end.

(** ** Fields *)

Module Field.

(** Modelled from the spec: nanomongo/field.py (class [Field]) is not among
    the sources.  A FieldSpec has a [required] flag, an optional
    [default_value] (the attribute exists only when a default was declared)
    and a validation capability that, given a raw value and a field name,
    returns a value or fails with a ValidationError ([inl detail]). *)
Record t : Type := make {
  required : bool;
  default_value : option pyval;
  validator : pyval -> string -> string + pyval
}.

(** Modelled from the spec: the constructor [Field(data_type, required=...,
    default=...)] of the missing field.py.  [check] stands for the
    validator generated for [data_type]; a field is required unless
    declared otherwise, and has a default only when one is given. *)
Definition new (check : pyval -> string -> string + pyval)
           (required : option bool) (default : option pyval) : t :=
  make (match required with Some b => b | None => true end) default check.

End Field.

(** ** The world: store of field mappings and trace of external calls *)

Definition loc : Type := nat.

(** Calls on the external collection object.  document.py only ever issues
    [CollSave]; [CollUpdate] is the partial update with set and unset
    operations that the store client offers. *)
Inductive store_call : Type :=
| CollSave (coll : pyval) (doc : dict pyval) (kwargs : dict pyval)
| CollUpdate (coll : pyval) (filter : dict pyval)
             (set_ops : dict pyval) (unset_ops : list string).

Inductive event : Type :=
| EValidate (field_name : string) (value : pyval)
| ECall (c : store_call).

Record world : Type := mkWorld {
  next : loc;
  cells : loc -> dict Field.t;
  trace : list event
}.

Definition upd {A} (f : loc -> A) (l : loc) (a : A) : loc -> A :=
  fun l' => if Nat.eqb l' l then a else f l'.

Definition M (A : Type) : Type := world -> result A * world.

Definition ret {A} (a : A) : M A := fun w => (Ok a, w).

Definition raise {A} (e : exn) : M A := fun w => (Raise e, w).

Definition bind {A B} (m : M A) (f : A -> M B) : M B :=
  fun w =>
    match m w with
    | (Ok a, w') => f a w'
    | (Raise e, w') => (Raise e, w')
    end.

Definition lift {A} (r : result A) : M A := fun w => (r, w).

Notation "x <- m ;; k" := (bind m (fun x => k))
  (at level 61, m at next level, right associativity).
Notation "m ;;; k" := (bind m (fun _ => k))
  (at level 61, right associativity).

Definition emit (e : event) : M unit :=
  fun w => (Ok tt, mkWorld (next w) (cells w) (trace w ++ [e])).

(** A fresh dictionary object. *)
Definition alloc (d : dict Field.t) : M loc :=
  fun w => (Ok (next w),
            mkWorld (S (next w)) (upd (cells w) (next w) d) (trace w)).

Definition read (l : loc) : M (dict Field.t) :=
  fun w => (Ok (cells w l), w).

Definition write (l : loc) (d : dict Field.t) : M unit :=
  fun w => (Ok tt, mkWorld (next w) (upd (cells w) l d) (trace w)).

(** [for x in l: s = body(s, x)], leaving at the first exception. *)
Fixpoint for_each {A S} (body : S -> A -> M S) (l : list A) (s : S) : M S :=
  match l with
  | [] => ret s
  | x :: r => s' <- body s x ;; for_each body r s'
  end.

(** [field.validator(value, field_name=field_name)] *)
Definition call_validator (f : Field.t) (value : pyval) (field_name : string)
  : M pyval :=
  emit (EValidate field_name value) ;;;
  match Field.validator f value field_name with
  | inr v => ret v
  | inl detail => raise (ValidationError (Rejected detail))
  end.

(** ** class Nanomongo *)

Module Nanomongo.

(** A registry object: [fields] refers to the dictionary object holding
    the field mapping; the three storage coordinates are [None] until
    set. *)
Record t : Type := mk {
  fields : loc;
  client : pyval;
  database : pyval;
  collection : pyval
}.

(** An argument of [Nanomongo(fields=...)]: a dictionary object or some
    other value. *)
Inductive fields_arg : Type :=
| FieldsDict (l : loc)
| FieldsOther (v : pyval).

(** An attribute value of a class namespace: a [Field] or anything else. *)
Inductive attr : Type :=
| AField (f : Field.t)
| AOther (v : pyval).

(** A positional argument of [from_dicts]: a dictionary (read only, so
    passed by its items) or some other value. *)
Inductive dicts_arg : Type :=
| ArgDict (d : dict attr)
| ArgOther (v : pyval).

Definition __init__ (fields : fields_arg) : result t :=
  match fields with
  | FieldsDict l => Ok (mk l VNone VNone VNone)
  | FieldsOther _ => Raise (TypeError "fields kwarg expected of type dict")
  end.

(** The inner loop of [from_dicts]:
    [for field_name, field_value in dct.items()]. *)
Definition collect_items (fields : dict Field.t) (dct : dict attr)
  : dict Field.t :=
  fold_left
    (fun fields item =>
       match snd item with
       | AField field_value => dict_set (fst item) field_value fields
       | AOther _ => fields
       end)
    dct fields.

(** The outer loop of [from_dicts]: [for dct in args]. *)
Fixpoint collect (fields : dict Field.t) (args : list dicts_arg)
  : result (dict Field.t) :=
  match args with
  | [] => Ok fields
  | ArgOther _ :: _ => Raise (TypeError "expected input of dictionaries")
  | ArgDict dct :: rest => collect (collect_items fields dct) rest
  end.

(** [fields = {}] is local to the call until it is handed to the
    constructor; it becomes a dictionary object of the store there. *)
Definition from_dicts (args : list dicts_arg) : M t :=
  match args with
  | [] => raise (TypeError "from_dicts takes at least 1 positional argument")
  | _ =>
      fields <- lift (collect [] args) ;;
      l <- alloc fields ;;
      lift (__init__ (FieldsDict l))
  end.

Definition has_field (self : t) (key : string) : M bool :=
  d <- read (fields self) ;; ret (dict_has key d).

(** [sorted(self.fields.keys())] *)
Definition list_fields (self : t) : M (list string) :=
  d <- read (fields self) ;; ret (sorted (keys d)).

(** [self.fields[field_name].validator(value, field_name=field_name)] *)
Definition validate (self : t) (field_name : string) (value : pyval)
  : M pyval :=
  d <- read (fields self) ;;
  match dict_get field_name d with
  | None => raise (KeyError field_name)
  | Some f => call_validator f value field_name
  end.

Section Client.

(** [util.valid_client] is imported from a module that is not among the
    sources. *)
Variable valid_client : pyval -> bool.

Definition set_client (self : t) (client : pyval) : result t :=
  if negb (valid_client client)
  then Raise (TypeError "pymongo or motor Client expected")
  else Ok (mk (fields self) client (database self) (collection self)).

End Client.

Definition set_db (self : t) (db_string : pyval) : result t :=
  if negb (truthy db_string) || negb (isinstance_str db_string)
  then Raise (TypeError "Exected database string")
  else Ok (mk (fields self) (client self) db_string (collection self)).

Definition set_collection (self : t) (col_string : pyval) : result t :=
  if negb (truthy col_string) || negb (isinstance_str col_string)
  then Raise (TypeError "Expected collection string")
  else Ok (mk (fields self) (client self) (database self) col_string).

Definition get_collection (self : t) : result pyval :=
  if negb (truthy (client self))
  then Raise (ConfigurationError "Mongo client not set")
  else if negb (truthy (database self))
  then Raise (ConfigurationError "db not set")
  else if negb (truthy (collection self))
  then Raise (ConfigurationError "collection not set")
  else Ok (VGetItem (VGetItem (client self) (database self))
                    (collection self)).

End Nanomongo.

(** ** class DocumentMeta *)

(** A class of the hierarchy: the universal base type [object], or a class
    with its identity and its [__bases__]. *)
Inductive pyclass : Type :=
| PyObject
| PyClass (cid : nat) (bases : list pyclass).

(** The [bases] argument of a class declaration: a plain tuple, or an
    instance of the marker subclass [BasesTuple]. *)
Inductive pytuple : Type :=
| Tuple (items : list pyclass)
| BasesTuple (items : list pyclass).

Definition items (t : pytuple) : list pyclass :=
  match t with Tuple l => l | BasesTuple l => l end.

(** [a is b] on classes. *)
Definition class_is (a b : pyclass) : bool :=
  match a, b with
  | PyObject, PyObject => true
  | PyClass i _, PyClass j _ => Nat.eqb i j
  | _, _ => false
  end.

(** [b in seen] *)
Definition class_in (b : pyclass) (seen : list pyclass) : bool :=
  existsb (class_is b) seen.

(** A declared record type after [DocumentMeta.__init__]. *)
Record doc_class : Type := mkClass {
  cls_name : string;
  cls_dict : dict Nanomongo.attr;
  nanomongo : Nanomongo.t
}.

Module DocumentMeta.

Import Nanomongo.

(** The body of the loop of [__get_bases] for one [base]; the generator
    is consumed to its end by [_get_bases], so it is the list of what it
    yields. *)
Fixpoint yield_from (base : pyclass) : list pyclass :=
  match base with
  | PyObject => []
  | PyClass _ child_bases => base :: flat_map yield_from child_bases
  end.

Definition __get_bases (bases : list pyclass) : list pyclass :=
  flat_map yield_from bases.

(** [(b for b in bases if not (b in seen or seen.append(b)))] *)
Fixpoint unique_bases (seen : list pyclass) (bases : list pyclass)
  : list pyclass :=
  match bases with
  | [] => []
  | b :: rest =>
      if class_in b seen then unique_bases seen rest
      else b :: unique_bases (seen ++ [b]) rest
  end.

Definition _get_bases (bases : pytuple) : pytuple :=
  match bases with
  | BasesTuple _ => bases
  | Tuple l => BasesTuple (unique_bases [] (__get_bases l))
  end.

Section Imports.

(** [util.DotNotationMixin], [util.valid_client] and the validator that
    [Field] generates for [bson.objectid.ObjectId] come from modules
    that are not among the sources; [str_lower] is the builtin
    [str.lower]. *)
Variable DotNotationMixin : pyclass.
Variable valid_client : pyval -> bool.
Variable ObjectId_validator : pyval -> string -> string + pyval.
Variable str_lower : string -> string.

(** The bases handed to [type.__new__]. *)
Definition __new__ (bases : pytuple) (kwargs : dict pyval) : pytuple :=
  let use_dot_notation :=
    match dict_get "dot_notation" kwargs with
    | Some v => v
    | None => VNone
    end in
  let new_bases := _get_bases bases in
  if truthy use_dot_notation
     && negb (class_in DotNotationMixin (items new_bases))
  then Tuple (DotNotationMixin :: items new_bases)
  else new_bases.

Definition as_attrs (d : dict Field.t) : dict attr :=
  map (fun kv => (fst kv, AField (snd kv))) d.

(** [delattr(cls, field_name)] for every declared [Field]. *)
Definition strip_fields (dct : dict attr) : dict attr :=
  filter (fun kv => match snd kv with AField _ => false | AOther _ => true end)
         dct.

(** [__init__] runs on the class that [type.__new__] returned for the
    bases of [__new__] (when [type.__new__] raises, it is not run).
    [hasattr(cls, 'nanomongo')] and [cls.nanomongo] look the name up on the
    new class: first in its own namespace [dct], then in its ancestors,
    where [inherited] is the registry of the nearest ancestor that has one.
    What the namespace itself binds under that name is a Field or a plain
    value, which has no attribute [fields]. *)
Definition __init__ (name : string) (inherited : option Nanomongo.t)
           (dct : dict attr) (kwargs : dict pyval) : M doc_class :=
  nm <- match dict_get "nanomongo" dct with
        | Some _ => raise (AttributeError "fields")
        | None =>
            match inherited with
            | Some parent =>
                parent_fields <- read (fields parent) ;;
                from_dicts [ArgDict (as_attrs parent_fields); ArgDict dct]
            | None => from_dicts [ArgDict dct]
            end
        end ;;
  has_id <- has_field nm "_id" ;;
  (if has_id then ret tt
   else
     d <- read (fields nm) ;;
     write (fields nm)
           (dict_set "_id" (Field.new ObjectId_validator (Some false) None) d)) ;;;
  nm <- match dict_get "client" kwargs with
        | Some c => lift (set_client valid_client nm c)
        | None => ret nm
        end ;;
  nm <- match dict_get "db" kwargs with
        | Some db => lift (set_db nm db)
        | None => ret nm
        end ;;
  nm <- match dict_get "collection" kwargs with
        | Some col => lift (set_collection nm col)
        | None => lift (set_collection nm (VStr (str_lower name)))
        end ;;
  ret (mkClass name (strip_fields dct) nm).

End Imports.

End DocumentMeta.

(** ** class BaseDocument *)

Module BaseDocument.

Import Nanomongo.

(** [if input dict, merge (not updating) into kwargs]: the first
    positional argument must be a dict; its items are added to [kwargs]
    under the names [kwargs] does not have yet. *)
Definition merge_args (args : list pyval) (kwargs : dict pyval)
  : result (dict pyval) :=
  match args with
  | [] => Ok kwargs
  | VDict d :: _ =>
      Ok (fold_left
            (fun kwargs item =>
               if dict_has (fst item) kwargs then kwargs
               else dict_set (fst item) (snd item) kwargs)
            d kwargs)
  | _ :: _ => Raise (TypeError "dict or dict subclass argument expected")
  end.

(** [dict.__init__(self, *args, **kwargs)]: at most one positional
    argument, whose items come first, then the keyword arguments. *)
Definition dict_init (args : list pyval) (kwargs : dict pyval)
  : result (dict pyval) :=
  match args with
  | [] => Ok (dict_update [] kwargs)
  | [VDict d] => Ok (dict_update (dict_update [] d) kwargs)
  | [_] => Raise (TypeError "object is not iterable")
  | _ :: _ :: _ => Raise (TypeError "dict expected at most 1 argument")
  end.

(** [val() if callable(val) else val] *)
Definition materialize (val : pyval) : pyval :=
  match val with
  | VCallable f => f tt
  | _ => val
  end.

(** [for field_name, field in self.nanomongo.fields.items()]: store the
    default of every field that has one. *)
Definition set_defaults (schema : dict Field.t) (self : dict pyval)
  : dict pyval :=
  fold_left
    (fun self item =>
       match Field.default_value (snd item) with
       | Some val => dict_set (fst item) (materialize val) self
       | None => self
       end)
    schema self.

(** The body of [for field_name in kwargs]. *)
Definition set_supplied (cls : doc_class) (self : dict pyval)
           (item : string * pyval) : M (dict pyval) :=
  let (field_name, value) := item in
  known <- has_field (nanomongo cls) field_name ;;
  if known then
    validate (nanomongo cls) field_name value ;;;
    ret (dict_set field_name value self)
  else raise (ExtraFieldError field_name value (cls_name cls)).

Definition __init__ (cls : doc_class) (args : list pyval)
           (kwargs : dict pyval) : M (dict pyval) :=
  kwargs <- lift (merge_args args kwargs) ;;
  self <- lift (dict_init args kwargs) ;;
  schema <- read (fields (nanomongo cls)) ;;
  for_each (set_supplied cls) kwargs (set_defaults schema self).

Definition get_collection (cls : doc_class) : result pyval :=
  Nanomongo.get_collection (nanomongo cls).

(** The hook [validate()] as [BaseDocument] defines it: [pass]. *)
Definition validate (self : dict pyval) : M pyval := ret VNone.

(** First loop of [validate_all]: [for field, value in self.items()]. *)
Definition check_declared (cls : doc_class) (_ : unit)
           (item : string * pyval) : M unit :=
  known <- has_field (nanomongo cls) (fst item) ;;
  if known then ret tt
  else raise (ValidationError (ExtraField (fst item) (snd item))).

(** Second loop of [validate_all]:
    [for field_name, field in self.nanomongo.fields.items()]. *)
Definition check_field (self : dict pyval) (_ : unit)
           (item : string * Field.t) : M unit :=
  match dict_get (fst item) self with
  | Some value => call_validator (snd item) value (fst item) ;;; ret tt
  | None =>
      if Field.required (snd item)
      then raise (ValidationError (RequiredMissing (fst item)))
      else ret tt
  end.

Section Hooks.

(** [self.validate], which a subclass may override. *)
Variable validate_hook : dict pyval -> M pyval.

Definition validate_all (cls : doc_class) (self : dict pyval) : M pyval :=
  for_each (check_declared cls) self tt ;;;
  schema <- read (fields (nanomongo cls)) ;;
  for_each (check_field self) schema tt ;;;
  validate_hook self.

(** What the external collection object answers to a call. *)
Variable collection_reply : store_call -> result pyval.

Definition save (cls : doc_class) (self : dict pyval) (kwargs : dict pyval)
  : M pyval :=
  validate_all cls self ;;;
  coll <- lift (get_collection cls) ;;
  emit (ECall (CollSave coll self kwargs)) ;;;
  lift (collection_reply (CollSave coll self kwargs)).

End Hooks.

Section Queries.

(** The class itself as a value (what is stored under [as_class]) and the
    [find] and [find_one] of the external collection object. *)
Variable cls_object : pyval.
Variable collection_find : pyval -> list pyval -> dict pyval -> result pyval.
Variable collection_find_one :
  pyval -> list pyval -> dict pyval -> result pyval.

Definition find (cls : doc_class) (args : list pyval) (kwargs : dict pyval)
  : result pyval :=
  let kwargs :=
    if negb (dict_has "as_class" kwargs)
    then dict_set "as_class" cls_object kwargs
    else kwargs in
  rbind (get_collection cls) (fun coll => collection_find coll args kwargs).

Definition find_one (cls : doc_class) (args : list pyval)
           (kwargs : dict pyval) : result pyval :=
  let kwargs :=
    if negb (dict_has "as_class" kwargs)
    then dict_set "as_class" cls_object kwargs
    else kwargs in
  rbind (get_collection cls)
        (fun coll => collection_find_one coll args kwargs).

End Queries.

Section Dir.

(** What [super(BaseDocument, self).__dir__()] lists. *)
Variable super_dir : list string.

Definition __dir__ (cls : doc_class) : M (list string) :=
  field_names <- list_fields (nanomongo cls) ;;
  ret (sorted (super_dir ++ field_names)).

End Dir.

End BaseDocument.

(** ** Invariants *)

(** A registry built by the metaclass: its field mapping is an allocated
    dictionary object, without repeated keys, that has the identifier
    field. *)
Definition schema_ok (w : world) (nm : Nanomongo.t) : Prop :=
  Nanomongo.fields nm < next w
  /\ dict_wf (cells w (Nanomongo.fields nm))
  /\ dict_has "_id" (cells w (Nanomongo.fields nm)) = true.

(** The world before any type is declared. *)
Definition empty_world : world := mkWorld 0 (fun _ => []) [].

(** ** The ancestors of a declaration *)

(** Identity of a class as a number ([id(c)]); [class_is] compares it. *)
Definition ident (c : pyclass) : nat :=
  match c with
  | PyObject => 0
  | PyClass cid _ => S cid
  end.

(** [among c bases]: [c] is a class other than [object] that is one of
    [bases] or is reached from one of them through [__bases__]. *)
Inductive among (c : pyclass) : list pyclass -> Prop :=
| among_here bases :
    In c bases -> c <> PyObject -> among c bases
| among_up bases cid bs :
    In (PyClass cid bs) bases -> among c bs -> among c bases.

(** First-seen order, in the specification's words: of a sequence keep
    every element whose class did not occur earlier in the sequence
    ([before] is what came earlier). *)
Fixpoint first_seen (before l : list pyclass) : list pyclass :=
  match l with
  | [] => []
  | x :: r =>
      (if class_in x before then [] else [x]) ++ first_seen (before ++ [x]) r
  end.

(** Induction on a class through the list of its bases. *)
Fixpoint pyclass_rect' (P : pyclass -> Prop) (HO : P PyObject)
         (HC : forall cid bs, Forall P bs -> P (PyClass cid bs))
         (c : pyclass) : P c :=
  match c with
  | PyObject => HO
  | PyClass cid bs =>
      HC cid bs
         ((fix all (l : list pyclass) : Forall P l :=
             match l with
             | [] => Forall_nil P
             | x :: r => Forall_cons x (pyclass_rect' P HO HC x) (all r)
             end) bs)
  end.

(** ** Storage coordinates *)

(** [x is None] *)
Definition is_none (v : pyval) : bool :=
  match v with VNone => true | _ => false end.

(** The coordinates of a registry as [Nanomongo.__init__] and the three
    setters leave them: each is [None] or a value its setter accepted. *)
Definition coords_ok (valid_client : pyval -> bool) (nm : Nanomongo.t)
  : Prop :=
  (Nanomongo.client nm = VNone
   \/ valid_client (Nanomongo.client nm) = true)
  /\ (Nanomongo.database nm = VNone
      \/ (truthy (Nanomongo.database nm) = true
          /\ isinstance_str (Nanomongo.database nm) = true))
  /\ (Nanomongo.collection nm = VNone
      \/ (truthy (Nanomongo.collection nm) = true
          /\ isinstance_str (Nanomongo.collection nm) = true)).

(** ** Outcomes of validation *)

(** The validator of [f] lets [value] through. *)
Definition accepts (f : Field.t) (value : pyval) (name : string) : bool :=
  match Field.validator f value name with inr _ => true | inl _ => false end.

(** A supplied item that the loop of the constructor lets through: its name
    is declared and its value passes the validator. *)
Definition supplied_ok (schema : dict Field.t) (item : string * pyval)
  : bool :=
  match dict_get (fst item) schema with
  | Some f => accepts f (snd item) (fst item)
  | None => false
  end.

(** A declared field that the second loop of [validate_all] lets through:
    present with a value that passes, or absent and not required. *)
Definition field_ok (self : dict pyval) (item : string * Field.t) : bool :=
  match dict_get (fst item) self with
  | Some value => accepts (snd item) value (fst item)
  | None => negb (Field.required (snd item))
  end.

(** The validator calls for a sequence of items, one per item, in order. *)
Definition validations {A} (value_of : A -> pyval) (l : dict A)
  : list event :=
  map (fun kv => EValidate (fst kv) (value_of (snd kv))) l.

(** The calls on the external collection recorded in a trace. *)
Fixpoint calls (t : list event) : list store_call :=
  match t with
  | [] => []
  | ECall c :: r => c :: calls r
  | EValidate _ _ :: r => calls r
  end.

(** The field mapping of a declared type, and the world after more events
    were recorded. *)
Definition schema_of (cls : doc_class) (w : world) : dict Field.t :=
  cells w (Nanomongo.fields (nanomongo cls)).

Definition traced (w : world) (evs : list event) : world :=
  mkWorld (next w) (cells w) (trace w ++ evs).

(** The validator calls of the second loop of [validate_all] over [schema]:
    one for each declared field that [self] has. *)
Definition checked (self : dict pyval) (schema : dict Field.t)
  : list event :=
  flat_map
    (fun item =>
       match dict_get (fst item) self with
       | Some value => [EValidate (fst item) value]
       | None => []
       end)
    schema.

(** Every key of [self] is declared by [schema]. *)
Definition all_declared (schema : dict Field.t) (self : dict pyval) : bool :=
  forallb (fun kv => dict_has (fst kv) schema) self.

(** ** A worked declaration *)

(** The record types of the test module: [BaseDocument] itself, then
    [Doc] with [foo = Field(str)], [bar = Field(int, required=False)] and
    [moo = Field(list)], declared with a client and a database, and a
    subtype of [Doc] that declares [foo] again. *)
Module Example.

Definition valid_client (v : pyval) : bool :=
  match v with VObject _ => true | _ => false end.

Definition ObjectId_validator (v : pyval) (name : string) : string + pyval :=
  match v with VObject _ => inr v | _ => inl "not an ObjectId" end.

Definition str_validator (v : pyval) (name : string) : string + pyval :=
  match v with VStr _ => inr v | _ => inl "not a str" end.

Definition int_validator (v : pyval) (name : string) : string + pyval :=
  match v with VInt _ => inr v | _ => inl "not an int" end.

Definition list_validator (v : pyval) (name : string) : string + pyval :=
  match v with VList _ => inr v | _ => inl "not a list" end.

Definition foo : Field.t := Field.new str_validator None None.
Definition bar : Field.t := Field.new int_validator (Some false) None.
Definition moo : Field.t := Field.new list_validator None None.

(** A field of a subtype with a default that its own validator rejects. *)
Definition foo_with_default : Field.t :=
  Field.new str_validator (Some false) (Some (VInt 0)).

Definition DotNotationMixin : pyclass := PyClass 1 [PyObject].
Definition dict_class : pyclass := PyClass 2 [PyObject].
Definition BaseDocument_class : pyclass := PyClass 3 [dict_class].
Definition Doc_class : pyclass :=
  PyClass 4 [DotNotationMixin; BaseDocument_class; dict_class].

Definition Doc_dct : dict Nanomongo.attr :=
  [("__module__", Nanomongo.AOther (VStr "test_document_motor"));
   ("foo", Nanomongo.AField foo);
   ("bar", Nanomongo.AField bar);
   ("moo", Nanomongo.AField moo)].

Definition Doc_kwargs : dict pyval :=
  [("dot_notation", VBool true);
   ("client", VObject 7);
   ("db", VStr "nanotestdb")].

Definition Sub_dct : dict Nanomongo.attr :=
  [("foo", Nanomongo.AField foo_with_default)].

Definition declare :=
  DocumentMeta.__init__ valid_client ObjectId_validator lower.

Definition BaseDocument_cls : doc_class :=
  mkClass "BaseDocument" []
          (Nanomongo.mk 0 VNone VNone (VStr "basedocument")).

Definition w1 : world := snd (declare "BaseDocument" None [] [] empty_world).

Definition Doc_cls : doc_class :=
  mkClass "Doc"
          [("__module__", Nanomongo.AOther (VStr "test_document_motor"))]
          (Nanomongo.mk 1 (VObject 7) (VStr "nanotestdb") (VStr "doc")).

Definition w2 : world :=
  snd (declare "Doc" (Some (nanomongo BaseDocument_cls)) Doc_dct Doc_kwargs w1).

Definition Sub_cls : doc_class :=
  mkClass "Sub" [] (Nanomongo.mk 2 VNone VNone (VStr "sub")).

Definition w3 : world :=
  snd (declare "Sub" (Some (nanomongo Doc_cls)) Sub_dct [] w2).

(** The collection answers every call with [None]. *)
Definition reply (c : store_call) : result pyval := Ok VNone.

Definition Doc_collection : pyval :=
  VGetItem (VGetItem (VObject 7) (VStr "nanotestdb")) (VStr "doc").

(** A stored document, then the same after [d.foo = 'new foo'] and
    [del d['bar']]. *)
Definition stored : dict pyval :=
  [("_id", VObject 100); ("foo", VStr "foo value"); ("bar", VInt 42);
   ("moo", VList [])].

Definition changed : dict pyval :=
  dict_del "bar" (dict_set "foo" (VStr "new foo") stored).

Definition atomic : dict pyval := [("atomic", VBool true)].

(** A type whose field has a validator that converts what it accepts. *)
Definition num_validator (v : pyval) (name : string) : string + pyval :=
  match v with
  | VInt _ => inr v
  | VBool b => inr (VInt (if b then 1 else 0))
  | _ => inl "not a number"
  end.

Definition num : Field.t := Field.new num_validator None None.

Definition Num_dct : dict Nanomongo.attr :=
  [("n", Nanomongo.AField num); ("limit", Nanomongo.AOther (VInt 10))].

Definition Num_cls : doc_class :=
  mkClass "Num" [("limit", Nanomongo.AOther (VInt 10))]
          (Nanomongo.mk 3 VNone VNone (VStr "numbers")).

Definition w4 : world :=
  snd (declare "Num" (Some (nanomongo BaseDocument_cls)) Num_dct
               [("collection", VStr "numbers")] w3).

(** A type with defaults: [tags = Field(list, required=False, default=list)]
    has a callable default, [count = Field(int, required=False, default=0)]
    a plain one, and [title = Field(str)] none. *)
Definition tags : Field.t :=
  Field.new list_validator (Some false)
            (Some (VCallable (fun _ => VList []))).

Definition count : Field.t :=
  Field.new int_validator (Some false) (Some (VInt 0)).

Definition Tagged_dct : dict Nanomongo.attr :=
  [("title", Nanomongo.AField foo);
   ("tags", Nanomongo.AField tags);
   ("count", Nanomongo.AField count)].

Definition Tagged_cls : doc_class :=
  mkClass "Tagged" [] (Nanomongo.mk 4 VNone VNone (VStr "tagged")).

Definition w5 : world :=
  snd (declare "Tagged" (Some (nanomongo BaseDocument_cls)) Tagged_dct [] w4).

End Example.

(** * Properties *)

(** ** Dictionaries *)

Section DictFacts.

Context {A : Type}.
Implicit Types (d : dict A) (k : string) (v : A).

Lemma dict_get_set_eq k v d : dict_get k (dict_set k v d) = Some v.
Proof.
  induction d as [|[k' v'] r IH]; simpl.
  - now rewrite String.eqb_refl.
  - destruct (String.eqb k k') eqn:E; simpl.
    + now rewrite String.eqb_refl.
    + now rewrite E.
Qed.

Lemma dict_get_set_ne k k' v d :
  k <> k' -> dict_get k (dict_set k' v d) = dict_get k d.
Proof.
  intros Hne. induction d as [|[k0 v0] r IH]; simpl.
  - apply String.eqb_neq in Hne. now rewrite Hne.
  - destruct (String.eqb k' k0) eqn:E; simpl.
    + apply String.eqb_eq in E. subst k0.
      apply String.eqb_neq in Hne. now rewrite Hne.
    + destruct (String.eqb k k0); auto.
Qed.

Lemma dict_get_set k k' v d :
  dict_get k (dict_set k' v d)
  = if String.eqb k k' then Some v else dict_get k d.
Proof.
  destruct (String.eqb k k') eqn:E.
  - apply String.eqb_eq in E. subst. apply dict_get_set_eq.
  - apply String.eqb_neq in E. now apply dict_get_set_ne.
Qed.

Lemma dict_has_set k k' v d :
  dict_has k (dict_set k' v d) = String.eqb k k' || dict_has k d.
Proof.
  unfold dict_has. rewrite dict_get_set.
  now destruct (String.eqb k k').
Qed.

Lemma dict_has_keys k d : dict_has k d = true <-> In k (keys d).
Proof.
  unfold dict_has. induction d as [|[k' v'] r IH]; simpl.
  - split; [discriminate | tauto].
  - destruct (String.eqb k k') eqn:E.
    + apply String.eqb_eq in E. subst. tauto.
    + apply String.eqb_neq in E. rewrite IH. split; [tauto|].
      intros [H|H]; [congruence | assumption].
Qed.

Lemma dict_get_none_keys k d : dict_get k d = None <-> ~ In k (keys d).
Proof.
  rewrite <- dict_has_keys. unfold dict_has.
  destruct (dict_get k d); split; intros; congruence.
Qed.

Lemma dict_get_in k v d : dict_get k d = Some v -> In (k, v) d.
Proof.
  induction d as [|[k' v'] r IH]; simpl; [discriminate|].
  destruct (String.eqb k k') eqn:E.
  - apply String.eqb_eq in E. intros [= ->]. subst. now left.
  - auto.
Qed.

Lemma in_dict_get k v d : dict_wf d -> In (k, v) d -> dict_get k d = Some v.
Proof.
  unfold dict_wf. induction d as [|[k' v'] r IH]; simpl; [tauto|].
  intros Hwf Hin. inversion Hwf as [|? ? Hnotin Hwf']; subst.
  destruct Hin as [[= -> ->]|Hin].
  - now rewrite String.eqb_refl.
  - destruct (String.eqb k k') eqn:E; [|auto].
    apply String.eqb_eq in E. subst k'. exfalso. apply Hnotin.
    change k with (fst (k, v)). now apply in_map.
Qed.

Lemma keys_dict_set k v d :
  keys (dict_set k v d) = if dict_has k d then keys d else keys d ++ [k].
Proof.
  unfold dict_has. induction d as [|[k' v'] r IH]; simpl; [reflexivity|].
  destruct (String.eqb k k') eqn:E; simpl.
  - apply String.eqb_eq in E. now subst.
  - rewrite IH. now destruct (dict_get k r).
Qed.

Lemma dict_wf_set k v d : dict_wf d -> dict_wf (dict_set k v d).
Proof.
  unfold dict_wf. intros Hwf. rewrite keys_dict_set.
  destruct (dict_has k d) eqn:E; [assumption|].
  apply NoDup_app; [assumption | constructor; [simpl; tauto | constructor] |].
  intros x Hx [<-|[]]. apply dict_has_keys in Hx. congruence.
Qed.

Lemma dict_wf_nil : dict_wf (@nil (string * A)).
Proof. constructor. Qed.

Lemma count_key_notin k d : ~ In k (keys d) -> count_key k d = 0.
Proof.
  unfold count_key. induction d as [|[k' v'] r IH]; simpl; [reflexivity|].
  intros Hn. destruct (String.eqb k k') eqn:E.
  - apply String.eqb_eq in E. exfalso. apply Hn. now left.
  - apply IH. tauto.
Qed.

(** In a well-formed dictionary a key that is present is present once. *)
Lemma count_key_wf k d :
  dict_wf d -> dict_has k d = true -> count_key k d = 1.
Proof.
  unfold dict_wf. intros Hwf Hhas. apply dict_has_keys in Hhas.
  induction d as [|[k' v'] r IH]; simpl in *; [tauto|].
  inversion Hwf as [|? ? Hnotin Hwf']; subst.
  unfold count_key in *. simpl.
  destruct (String.eqb k k') eqn:E.
  - apply String.eqb_eq in E. subst k'. simpl.
    pose proof (count_key_notin k r Hnotin) as H0.
    unfold count_key in H0. now rewrite H0.
  - apply String.eqb_neq in E. apply IH; [assumption|].
    destruct Hhas; congruence.
Qed.

Lemma dict_wf_update d src : dict_wf d -> dict_wf (dict_update d src).
Proof.
  unfold dict_update. revert d.
  induction src as [|[k v] r IH]; simpl; intros d Hwf; [assumption|].
  apply IH. now apply dict_wf_set.
Qed.

Lemma dict_update_get_notin d src k :
  dict_has k src = false -> dict_get k (dict_update d src) = dict_get k d.
Proof.
  unfold dict_update, dict_has. revert d.
  induction src as [|[k0 v0] r IH]; simpl; intros d H; [reflexivity|].
  destruct (String.eqb k k0) eqn:E; [discriminate|].
  rewrite (IH _ H). apply String.eqb_neq in E. now apply dict_get_set_ne.
Qed.

(** After [d.update(src)] a key of [src] has the value [src] gives it. *)
Lemma dict_update_get d src k :
  dict_wf src ->
  dict_get k (dict_update d src)
  = match dict_get k src with Some v => Some v | None => dict_get k d end.
Proof.
  unfold dict_update, dict_wf. revert d.
  induction src as [|[k0 v0] r IH]; simpl; intros d Hwf; [reflexivity|].
  inversion Hwf as [|? ? Hnotin Hwf']; subst. rewrite (IH _ Hwf').
  destruct (String.eqb k k0) eqn:E.
  - apply String.eqb_eq in E. subst k0.
    apply dict_get_none_keys in Hnotin. rewrite Hnotin.
    apply dict_get_set_eq.
  - apply String.eqb_neq in E.
    destruct (dict_get k r); [reflexivity | now apply dict_get_set_ne].
Qed.

Lemma nodupb_spec (l : list string) : nodupb l = true -> NoDup l.
Proof.
  induction l as [|x r IH]; simpl; [constructor|].
  intros H. apply andb_true_iff in H. destruct H as [Hx Hr].
  constructor; [|auto]. intros Hin.
  apply negb_true_iff in Hx.
  assert (existsb (String.eqb x) r = true); [|congruence].
  apply existsb_exists. exists x. split; [assumption|].
  apply String.eqb_refl.
Qed.

Lemma dict_wfb_spec d : dict_wfb d = true -> dict_wf d.
Proof. apply nodupb_spec. Qed.

End DictFacts.

(** ** The monad *)

Section MonadFacts.

Context {A B : Type}.

Lemma bind_ok (m : M A) (f : A -> M B) w b w' :
  bind m f w = (Ok b, w') ->
  exists a w1, m w = (Ok a, w1) /\ f a w1 = (Ok b, w').
Proof.
  unfold bind. destruct (m w) as [[a|e] w1]; [eauto | discriminate].
Qed.

Lemma bind_step (m : M A) (f : A -> M B) w a w1 :
  m w = (Ok a, w1) -> bind m f w = f a w1.
Proof. unfold bind. now intros ->. Qed.

Lemma bind_raise (m : M A) (f : A -> M B) w e w1 :
  m w = (Raise e, w1) -> bind m f w = (Raise e, w1).
Proof. unfold bind. now intros ->. Qed.

Lemma lift_ok (r : result A) w a w' :
  lift r w = (Ok a, w') -> r = Ok a /\ w' = w.
Proof. unfold lift. now intros [= -> ->]. Qed.

Lemma ret_ok (x : A) w a w' : ret x w = (Ok a, w') -> x = a /\ w' = w.
Proof. unfold ret. now intros [= -> ->]. Qed.

End MonadFacts.

(** ** Schema composition *)

Section SchemaFacts.

Import Nanomongo DocumentMeta.

Lemma collect_items_wf fields dct :
  dict_wf fields -> dict_wf (collect_items fields dct).
Proof.
  unfold collect_items. revert fields.
  induction dct as [|[k a] r IH]; simpl; intros fields Hwf; [assumption|].
  apply IH. destruct a; [now apply dict_wf_set | assumption].
Qed.

(** Looking a name up after the inner loop of [from_dicts]: the [Field]
    the namespace declares under that name, else what was there before. *)
Lemma collect_items_get fields dct k :
  dict_wf dct ->
  dict_get k (collect_items fields dct)
  = match dict_get k dct with
    | Some (AField f) => Some f
    | _ => dict_get k fields
    end.
Proof.
  unfold collect_items, dict_wf. revert fields.
  induction dct as [|[k0 a] r IH]; simpl; intros fields Hwf; [reflexivity|].
  inversion Hwf as [|? ? Hnotin Hwf']; subst.
  rewrite (IH _ Hwf'). destruct (String.eqb k k0) eqn:E.
  - apply String.eqb_eq in E. subst k0.
    apply dict_get_none_keys in Hnotin. rewrite Hnotin.
    destruct a; [apply dict_get_set_eq | reflexivity].
  - apply String.eqb_neq in E.
    destruct (dict_get k r) as [[f|v]|]; try reflexivity;
      (destruct a; [now apply dict_get_set_ne | reflexivity]).
Qed.

Lemma keys_as_attrs d : keys (as_attrs d) = keys d.
Proof.
  unfold keys, as_attrs. rewrite map_map. reflexivity.
Qed.

Lemma dict_get_as_attrs d k :
  dict_get k (as_attrs d) = option_map AField (dict_get k d).
Proof.
  induction d as [|[k' f] r IH]; simpl; [reflexivity|].
  now destruct (String.eqb k k').
Qed.

Lemma set_client_fields vc nm c nm' :
  set_client vc nm c = Ok nm' -> fields nm' = fields nm.
Proof.
  unfold set_client. destruct (negb (vc c)); [discriminate|].
  now intros [= <-].
Qed.

Lemma set_db_fields nm v nm' :
  set_db nm v = Ok nm' -> fields nm' = fields nm.
Proof.
  unfold set_db. destruct (_ || _); [discriminate|]. now intros [= <-].
Qed.

Lemma set_collection_fields nm v nm' :
  set_collection nm v = Ok nm' -> fields nm' = fields nm.
Proof.
  unfold set_collection. destruct (_ || _); [discriminate|].
  now intros [= <-].
Qed.

Variable DotNotationMixin : pyclass.
Variable valid_client : pyval -> bool.
Variable ObjectId_validator : pyval -> string -> string + pyval.
Variable str_lower : string -> string.

Let id_field := Field.new ObjectId_validator (Some false) None.

Lemma from_dicts_two a b w :
  from_dicts [ArgDict a; ArgDict b] w
  = (Ok (Nanomongo.mk (next w) VNone VNone VNone),
     mkWorld (S (next w))
             (upd (cells w) (next w) (collect_items (collect_items [] a) b))
             (trace w)).
Proof. reflexivity. Qed.

Lemma from_dicts_one b w :
  from_dicts [ArgDict b] w
  = (Ok (Nanomongo.mk (next w) VNone VNone VNone),
     mkWorld (S (next w)) (upd (cells w) (next w) (collect_items [] b))
             (trace w)).
Proof. reflexivity. Qed.

(** What a successful declaration does to the world: one dictionary
    object is allocated, at the first unused location; it holds the
    parent's items overlaid with the declared fields, plus [_id] when
    that is absent; nothing else changes. *)
Lemma init_success name inherited dct kwargs w cls w' :
  __init__ valid_client ObjectId_validator str_lower name inherited dct kwargs w
  = (Ok cls, w') ->
  let parent_fields :=
    match inherited with Some p => cells w (fields p) | None => [] end in
  let merged := collect_items (collect_items [] (as_attrs parent_fields)) dct in
  fields (nanomongo cls) = next w
  /\ next w' = S (next w)
  /\ trace w' = trace w
  /\ cells w' (next w)
     = (if dict_has "_id" merged then merged
        else dict_set "_id" id_field merged)
  /\ forall l, l <> next w -> cells w' l = cells w l.
Proof.
  intros H parent_fields merged. unfold __init__ in H.
  apply bind_ok in H. destruct H as (nm0 & w1 & Hfd & H).
  assert (Hnm0 : fields nm0 = next w
                 /\ w1 = mkWorld (S (next w))
                                 (upd (cells w) (next w) merged) (trace w)).
  { subst merged parent_fields.
    destruct (dict_get "nanomongo" dct); [discriminate|].
    destruct inherited as [p|].
    - unfold bind, read in Hfd. rewrite from_dicts_two in Hfd.
      now injection Hfd as <- <-.
    - rewrite from_dicts_one in Hfd. now injection Hfd as <- <-. }
  destruct Hnm0 as [Hl ->]. clear Hfd.
  apply bind_ok in H. destruct H as (has_id & w2 & Hhas & H).
  unfold has_field, bind, read, ret in Hhas. simpl in Hhas.
  rewrite Hl in Hhas. unfold upd in Hhas. rewrite Nat.eqb_refl in Hhas.
  injection Hhas as <- <-.
  apply bind_ok in H. destruct H as (u & w3 & Hinj & H).
  assert (Hw3 : next w3 = S (next w) /\ trace w3 = trace w
                /\ cells w3 (next w)
                   = (if dict_has "_id" merged then merged
                      else dict_set "_id" id_field merged)
                /\ forall l, l <> next w -> cells w3 l = cells w l).
  { destruct (dict_has "_id" merged).
    - unfold ret in Hinj. injection Hinj as _ <-. simpl.
      unfold upd. rewrite Nat.eqb_refl. repeat split.
      intros l Hne. apply Nat.eqb_neq in Hne. now rewrite Hne.
    - unfold bind, read, write in Hinj. simpl in Hinj.
      injection Hinj as _ <-. simpl. rewrite Hl.
      unfold upd. rewrite !Nat.eqb_refl. repeat split.
      intros l Hne. apply Nat.eqb_neq in Hne. now rewrite Hne. }
  clear Hinj.
  apply bind_ok in H. destruct H as (nm1 & w4 & H1 & H).
  assert (E1 : fields nm1 = next w /\ w4 = w3).
  { destruct (dict_get "client" kwargs).
    - apply lift_ok in H1. destruct H1 as [H1 ->].
      apply set_client_fields in H1. split; congruence.
    - apply ret_ok in H1. destruct H1 as [<- ->]. auto. }
  destruct E1 as [E1 ->]. clear H1.
  apply bind_ok in H. destruct H as (nm2 & w5 & H2 & H).
  assert (E2 : fields nm2 = next w /\ w5 = w3).
  { destruct (dict_get "db" kwargs).
    - apply lift_ok in H2. destruct H2 as [H2 ->].
      apply set_db_fields in H2. split; congruence.
    - apply ret_ok in H2. destruct H2 as [<- ->]. auto. }
  destruct E2 as [E2 ->]. clear H2.
  apply bind_ok in H. destruct H as (nm3 & w6 & H3 & H).
  assert (E3 : fields nm3 = next w /\ w6 = w3).
  { destruct (dict_get "collection" kwargs);
      apply lift_ok in H3; destruct H3 as [H3 ->];
      apply set_collection_fields in H3; split; congruence. }
  destruct E3 as [E3 ->]. clear H3.
  apply ret_ok in H. destruct H as [<- ->]. simpl. tauto.
Qed.

Lemma collect_items_has_false fields dct k :
  dict_has k fields = false ->
  (forall f, ~ In (k, AField f) dct) ->
  dict_has k (collect_items fields dct) = false.
Proof.
  unfold collect_items. revert fields.
  induction dct as [|[k0 a] r IH]; simpl; intros fields Hf Hno; [assumption|].
  apply IH.
  - destruct a as [f|v]; [|assumption]. rewrite dict_has_set, Hf.
    destruct (String.eqb k k0) eqn:E; [|reflexivity].
    apply String.eqb_eq in E. subst k0. exfalso. apply (Hno f). now left.
  - intros f Hin. apply (Hno f). now right.
Qed.

Lemma init_fields_wf name inherited dct kwargs w cls w' :
  __init__ valid_client ObjectId_validator str_lower name inherited dct kwargs w
  = (Ok cls, w') ->
  dict_wf (cells w' (fields (nanomongo cls)))
  /\ dict_has "_id" (cells w' (fields (nanomongo cls))) = true.
Proof.
  intros H. apply init_success in H.
  destruct H as (Hl & _ & _ & Hc & _). rewrite Hl, Hc.
  match goal with |- context [dict_has "_id" ?m] => set (merged := m) end.
  assert (Hwf : dict_wf merged).
  { subst merged. apply collect_items_wf, collect_items_wf, dict_wf_nil. }
  destruct (dict_has "_id" merged) eqn:E; [tauto|]. split.
  - now apply dict_wf_set.
  - rewrite dict_has_set. reflexivity.
Qed.

(** Every declaration yields a registry that satisfies [schema_ok], and
    the registries built before keep satisfying it. *)
Lemma init_schema_ok name inherited dct kwargs w cls w' :
  __init__ valid_client ObjectId_validator str_lower name inherited dct kwargs w
  = (Ok cls, w') ->
  schema_ok w' (nanomongo cls)
  /\ forall nm, schema_ok w nm -> schema_ok w' nm.
Proof.
  intros H. pose proof (init_fields_wf _ _ _ _ _ _ _ H) as [Hwf Hid].
  apply init_success in H. destruct H as (Hl & Hn & _ & _ & Hother).
  split.
  - unfold schema_ok. rewrite Hn, Hl at 1. repeat split; auto.
  - intros nm (Hlt & Hw & Hi). unfold schema_ok.
    rewrite Hn, (Hother (fields nm)) by lia. repeat split; auto.
Qed.

(** C1. Whenever a record type is declared, the field mapping of its
    schema holds exactly one item named [_id]; when neither the inherited
    schema nor the type's own namespace declares that field, the item is
    the injected [Field(ObjectId, required=False)]: not required, without
    a default.  A field [_id] that the type declares itself is kept. *)
Theorem identifier_field_injected name inherited dct kwargs w cls w' :
  __init__ valid_client ObjectId_validator str_lower name inherited dct kwargs w
  = (Ok cls, w') ->
  let schema := cells w' (fields (nanomongo cls)) in
  let parent_fields :=
    match inherited with Some p => cells w (fields p) | None => [] end in
  count_key "_id" schema = 1
  /\ (dict_has "_id" parent_fields = false ->
      (forall f, ~ In ("_id", AField f) dct) ->
      exists f, dict_get "_id" schema = Some f
                /\ f = Field.new ObjectId_validator (Some false) None
                /\ Field.required f = false
                /\ Field.default_value f = None)
  /\ (forall f, dict_wf dct -> dict_get "_id" dct = Some (AField f) ->
      dict_get "_id" schema = Some f).
Proof.
  intros H schema parent_fields.
  pose proof (init_fields_wf _ _ _ _ _ _ _ H) as [Hwf Hid].
  apply init_success in H. destruct H as (Hl & _ & _ & Hc & _).
  fold parent_fields in Hc. split; [|split].
  - now apply count_key_wf.
  - intros Hp Hd. exists id_field. subst schema. rewrite Hl, Hc.
    rewrite collect_items_has_false; auto.
    + rewrite dict_get_set_eq. repeat split.
    + apply collect_items_has_false; [reflexivity|].
      intros f Hin. apply (in_map fst) in Hin. simpl in Hin.
      fold (keys (as_attrs parent_fields)) in Hin.
      rewrite keys_as_attrs in Hin. apply dict_has_keys in Hin. congruence.
  - intros f Hdw Hf. subst schema. rewrite Hl, Hc.
    match goal with |- context [dict_has "_id" ?m] => set (merged := m) end.
    assert (Hm : dict_get "_id" merged = Some f).
    { subst merged. rewrite collect_items_get by assumption. now rewrite Hf. }
    unfold dict_has. now rewrite Hm.
Qed.

(** C2. Declaring a subtype of a type that has a schema: the subtype's
    field mapping is the union of the parent's fields and the subtype's
    own declarations; under a name that both declare, the subtype's
    [Field] is the one stored (the parent's is replaced, not merged); the
    mapping is a new dictionary object, and the parent's mapping, like
    every dictionary that existed before, is unchanged. *)
Theorem subtype_fields_merge name parent dct kwargs w cls w' :
  __init__ valid_client ObjectId_validator str_lower name (Some parent) dct kwargs w
  = (Ok cls, w') ->
  schema_ok w parent ->
  dict_wf dct ->
  let schema := cells w' (fields (nanomongo cls)) in
  let parent_fields := cells w (fields parent) in
  (forall k f, dict_get k dct = Some (AField f) -> dict_get k schema = Some f)
  /\ (forall k, (forall f, dict_get k dct <> Some (AField f)) ->
      dict_get k schema = dict_get k parent_fields)
  /\ (forall k, In k (keys schema) <->
                In k (keys parent_fields)
                \/ exists f, dict_get k dct = Some (AField f))
  /\ next w <= fields (nanomongo cls)
  /\ fields (nanomongo cls) <> fields parent
  /\ cells w' (fields parent) = parent_fields
  /\ (forall l, l < next w -> cells w' l = cells w l).
Proof.
  intros H (Hlt & Hpwf & Hpid) Hdw schema parent_fields.
  apply init_success in H. destruct H as (Hl & _ & _ & Hc & Hother).
  fold parent_fields in Hc.
  set (merged := collect_items (collect_items [] (as_attrs parent_fields)) dct)
    in *.
  assert (Hget : forall k,
    dict_get k merged
    = match dict_get k dct with
      | Some (AField f) => Some f
      | _ => dict_get k parent_fields
      end).
  { intros k. subst merged. rewrite collect_items_get by assumption.
    rewrite collect_items_get.
    - rewrite dict_get_as_attrs.
      destruct (dict_get k dct) as [[f|v]|]; try reflexivity;
        now destruct (dict_get k parent_fields).
    - unfold dict_wf. now rewrite keys_as_attrs. }
  assert (Hid : dict_has "_id" merged = true).
  { unfold dict_has in *. rewrite Hget.
    destruct (dict_get "_id" dct) as [[f|v]|]; auto. }
  rewrite Hid in Hc.
  assert (Hs : schema = merged) by (subst schema; now rewrite Hl).
  assert (Hsplit : forall k, In k (keys schema) <->
    In k (keys parent_fields) \/ exists f, dict_get k dct = Some (AField f)).
  { intros k. rewrite Hs, <- !dict_has_keys. unfold dict_has.
    rewrite Hget. destruct (dict_get k dct) as [[f|v]|].
    - split; eauto.
    - split; [auto|]. intros [Hq|[f Hq]]; [assumption | discriminate].
    - split; [auto|]. intros [Hq|[f Hq]]; [assumption | discriminate]. }
  repeat split.
  - intros k f Hk. rewrite Hs, Hget, Hk. reflexivity.
  - intros k Hk. rewrite Hs, Hget.
    destruct (dict_get k dct) as [[f|v]|]; auto. now elim (Hk f).
  - apply Hsplit.
  - apply Hsplit.
  - lia.
  - lia.
  - apply Hother. lia.
  - intros l Hlw. apply Hother. lia.
Qed.

End SchemaFacts.

(** ** Linearization of the bases *)

Section BasesFacts.

Import DocumentMeta.

Lemma class_is_ident a b : class_is a b = Nat.eqb (ident a) (ident b).
Proof. destruct a, b; reflexivity. Qed.

Lemma class_in_spec b seen :
  class_in b seen = true <-> exists x, In x seen /\ ident x = ident b.
Proof.
  unfold class_in. rewrite existsb_exists. split; intros (x & Hin & Hx);
    exists x; split; auto; rewrite class_is_ident in *.
  - apply Nat.eqb_eq in Hx. congruence.
  - apply Nat.eqb_eq. congruence.
Qed.

Lemma class_in_app b l1 l2 :
  class_in b (l1 ++ l2) = class_in b l1 || class_in b l2.
Proof. unfold class_in. apply existsb_app. Qed.

Lemma class_in_ident a b l :
  ident a = ident b -> class_in a l = class_in b l.
Proof.
  intros E. unfold class_in. induction l as [|x r IH]; simpl; [reflexivity|].
  rewrite IH, !class_is_ident, E. reflexivity.
Qed.

(** The generator's [seen] list stands for everything yielded so far. *)
Lemma unique_bases_first_seen seen before l :
  (forall x, class_in x seen = class_in x before) ->
  unique_bases seen l = first_seen before l.
Proof.
  revert seen before. induction l as [|b r IH]; simpl; intros seen before E;
    [reflexivity|].
  rewrite <- (E b). destruct (class_in b seen) eqn:Hb; simpl.
  - apply IH. intros x. rewrite class_in_app, <- E. simpl.
    rewrite orb_false_r. destruct (class_is x b) eqn:Hx.
    + rewrite class_is_ident in Hx. apply Nat.eqb_eq in Hx.
      rewrite (class_in_ident x b seen Hx), Hb. reflexivity.
    + now rewrite orb_false_r.
  - f_equal. apply IH. intros x. rewrite !class_in_app, E. reflexivity.
Qed.

Lemma unique_bases_in seen l x :
  In x (unique_bases seen l) -> In x l /\ class_in x seen = false.
Proof.
  revert seen. induction l as [|b r IH]; simpl; intros seen; [tauto|].
  destruct (class_in b seen) eqn:Hb.
  - intros H. apply IH in H. tauto.
  - intros [<-|H]; [auto|]. apply IH in H. destruct H as [H1 H2].
    rewrite class_in_app in H2. apply orb_false_iff in H2. tauto.
Qed.

Lemma unique_bases_nodup seen l : NoDup (map ident (unique_bases seen l)).
Proof.
  revert seen. induction l as [|b r IH]; simpl; intros seen; [constructor|].
  destruct (class_in b seen) eqn:Hb; [apply IH|]. simpl.
  constructor; [|apply IH].
  intros Hin. apply in_map_iff in Hin. destruct Hin as (x & Hx & Hin).
  apply unique_bases_in in Hin. destruct Hin as [_ Hin].
  rewrite class_in_app in Hin. apply orb_false_iff in Hin.
  destruct Hin as [_ Hin]. simpl in Hin. rewrite orb_false_r in Hin.
  rewrite class_is_ident in Hin. apply Nat.eqb_neq in Hin. congruence.
Qed.

Lemma unique_bases_covers seen l x :
  In x l ->
  class_in x seen = true
  \/ exists x', In x' (unique_bases seen l) /\ ident x' = ident x.
Proof.
  revert seen. induction l as [|b r IH]; simpl; intros seen; [tauto|].
  intros [->|Hin].
  - destruct (class_in x seen) eqn:Hb; [now left|]. right.
    exists x. split; [now left | reflexivity].
  - destruct (class_in b seen) eqn:Hb.
    + apply IH. assumption.
    + destruct (IH (seen ++ [b]) Hin) as [H|(x' & H1 & H2)].
      * rewrite class_in_app in H. apply orb_true_iff in H.
        destruct H as [H|H]; [now left|]. right. exists b.
        split; [now left|]. simpl in H. rewrite orb_false_r in H.
        rewrite class_is_ident in H. apply Nat.eqb_eq in H. congruence.
      * right. exists x'. split; [now right | assumption].
Qed.

Lemma yield_from_cases b c :
  In c (yield_from b) ->
  (c = b /\ c <> PyObject)
  \/ exists cid bs, b = PyClass cid bs /\ among c bs.
Proof.
  revert c. induction b as [|cid bs IH] using pyclass_rect'; simpl;
    intros c; [tauto|].
  intros [<-|Hin]; [left; split; [reflexivity | discriminate]|].
  right. exists cid, bs. split; [reflexivity|].
  apply in_flat_map in Hin. destruct Hin as (b' & Hb' & Hin).
  rewrite Forall_forall in IH.
  destruct (IH b' Hb' c Hin) as [[-> Hne]|(cid' & bs' & -> & Ham)].
  - now apply among_here.
  - now apply among_up with cid' bs'.
Qed.

(** The generator yields exactly the classes reached from [bases],
    [object] excepted. *)
Lemma get_bases_among bases c :
  In c (__get_bases bases) <-> among c bases.
Proof.
  unfold __get_bases. split.
  - intros Hin. apply in_flat_map in Hin. destruct Hin as (b & Hb & Hin).
    destruct (yield_from_cases b c Hin) as [[-> Hne]|(cid & bs & -> & Ham)].
    + now apply among_here.
    + now apply among_up with cid bs.
  - induction 1 as [bases Hin Hne|bases cid bs Hin Ham IH].
    + apply in_flat_map. exists c. split; [assumption|].
      destruct c; [congruence | now left].
    + apply in_flat_map. exists (PyClass cid bs). split; [assumption|].
      now right.
Qed.

(** Depth first, parents before their own bases, left to right. *)
Lemma get_bases_preorder cid bs rest :
  __get_bases (PyClass cid bs :: rest)
  = PyClass cid bs :: __get_bases bs ++ __get_bases rest.
Proof. reflexivity. Qed.

Lemma get_bases_skips_object rest :
  __get_bases (PyObject :: rest) = __get_bases rest.
Proof. reflexivity. Qed.

Variable DotNotationMixin : pyclass.

(** C9. Declaring a type with a plain tuple of bases: the resolved bases
    are the depth-first sequence of ancestors reduced to first
    occurrences, so every ancestor other than [object] is there, exactly
    once, and [object] is not; and the bases of the new type are these,
    with the dot-notation mixin put in front when [dot_notation] is
    requested and the mixin is not among them. *)
Theorem bases_linearized bases kwargs :
  let resolved := items (_get_bases (Tuple bases)) in
  let requested :=
    truthy (match dict_get "dot_notation" kwargs with
            | Some v => v
            | None => VNone
            end) in
  resolved = first_seen [] (__get_bases bases)
  /\ NoDup (map ident resolved)
  /\ ~ In PyObject resolved
  /\ (forall c, In c resolved -> among c bases)
  /\ (forall c, among c bases ->
                exists c', In c' resolved /\ ident c' = ident c)
  /\ items (__new__ DotNotationMixin (Tuple bases) kwargs)
     = if requested && negb (class_in DotNotationMixin resolved)
       then DotNotationMixin :: resolved
       else resolved.
Proof.
  intros resolved requested. subst resolved requested. simpl.
  assert (Hin : forall c, In c (unique_bases [] (__get_bases bases)) ->
                          among c bases).
  { intros c Hc. apply unique_bases_in in Hc. now apply get_bases_among. }
  repeat split.
  - now apply unique_bases_first_seen.
  - apply unique_bases_nodup.
  - intros Hc. apply Hin in Hc.
    assert (Hno : forall l, among PyObject l -> False).
    { induction 1; auto. }
    now apply (Hno bases).
  - apply Hin.
  - intros c Hc. apply get_bases_among in Hc.
    destruct (unique_bases_covers [] _ _ Hc) as [H|H]; [discriminate|].
    assumption.
  - unfold __new__. simpl.
    now destruct (truthy _ && negb _).
Qed.

(** A [BasesTuple] is taken as already resolved. *)
Lemma get_bases_BasesTuple l : _get_bases (BasesTuple l) = BasesTuple l.
Proof. reflexivity. Qed.

End BasesFacts.

(** ** The registry: lookups and storage coordinates *)

Section RegistryFacts.

Import Nanomongo.

Variable valid_client : pyval -> bool.

(** A client that [valid_client] recognizes is an ordinary object, hence
    true in a boolean context. *)
Hypothesis valid_client_truthy :
  forall c, valid_client c = true -> truthy c = true.

Lemma init_coords_ok l nm :
  Nanomongo.__init__ (FieldsDict l) = Ok nm -> coords_ok valid_client nm.
Proof. intros [= <-]. unfold coords_ok. simpl. tauto. Qed.

Lemma set_client_coords_ok nm c nm' :
  coords_ok valid_client nm -> set_client valid_client nm c = Ok nm' ->
  coords_ok valid_client nm'.
Proof.
  unfold set_client, coords_ok. intros (_ & Hd & Hc).
  destruct (valid_client c) eqn:E; simpl; [|discriminate].
  intros [= <-]. simpl. tauto.
Qed.

Lemma set_db_coords_ok nm v nm' :
  coords_ok valid_client nm -> set_db nm v = Ok nm' ->
  coords_ok valid_client nm'.
Proof.
  unfold set_db, coords_ok. intros (Hcl & _ & Hc).
  destruct (truthy v) eqn:E1, (isinstance_str v) eqn:E2; simpl;
    try discriminate.
  intros [= <-]. simpl. tauto.
Qed.

Lemma set_collection_coords_ok nm v nm' :
  coords_ok valid_client nm -> set_collection nm v = Ok nm' ->
  coords_ok valid_client nm'.
Proof.
  unfold set_collection, coords_ok. intros (Hcl & Hd & _).
  destruct (truthy v) eqn:E1, (isinstance_str v) eqn:E2; simpl;
    try discriminate.
  intros [= <-]. simpl. tauto.
Qed.

(** C7. [get_collection] on a registry whose coordinates come from the
    constructor and the setters: it fails with ConfigurationError naming
    the client when that is unset, else naming the database when that is
    unset, else naming the collection when that is unset, and returns
    [client[database][collection]] when all three are set. *)
Theorem get_collection_checks_in_order nm :
  coords_ok valid_client nm ->
  get_collection nm
  = if is_none (client nm)
    then Raise (ConfigurationError "Mongo client not set")
    else if is_none (database nm)
    then Raise (ConfigurationError "db not set")
    else if is_none (collection nm)
    then Raise (ConfigurationError "collection not set")
    else Ok (VGetItem (VGetItem (client nm) (database nm)) (collection nm)).
Proof.
  unfold coords_ok, get_collection. intros (Hcl & Hd & Hc).
  assert (Et : forall v, truthy v = true -> is_none v = false)
    by (intros []; simpl; congruence).
  destruct Hcl as [->|Hcl]; [reflexivity|].
  apply valid_client_truthy in Hcl. rewrite Hcl, (Et _ Hcl). simpl.
  destruct Hd as [->|[Hd _]]; [reflexivity|].
  rewrite Hd, (Et _ Hd). simpl.
  destruct Hc as [->|[Hc _]]; [reflexivity|].
  rewrite Hc, (Et _ Hc). reflexivity.
Qed.

End RegistryFacts.

Section ValidateFacts.

Import Nanomongo.

(** C8, as the code has it. [Nanomongo.validate] looks the name up in the
    field mapping: for a registered name it calls that field's validator
    on the value and the name, and its outcome is the validator's (the
    validated value, or ValidationError); for a name that is not
    registered the lookup fails with KeyError and no validator runs. *)
Theorem validate_delegates_or_KeyError nm field_name value w :
  validate nm field_name value w
  = match dict_get field_name (cells w (fields nm)) with
    | Some f =>
        (match Field.validator f value field_name with
         | inr v => Ok v
         | inl detail => Raise (ValidationError (Rejected detail))
         end,
         mkWorld (next w) (cells w)
                 (trace w ++ [EValidate field_name value]))
    | None => (Raise (KeyError field_name), w)
    end.
Proof.
  unfold validate, bind, read. simpl.
  destruct (dict_get field_name (cells w (fields nm))) as [f|];
    [|reflexivity].
  unfold call_validator, bind, emit. simpl.
  now destruct (Field.validator f value field_name).
Qed.

End ValidateFacts.

(** ** Construction of documents *)

Section ConstructionFacts.

Import Nanomongo BaseDocument.

Lemma for_each_app {A S} (body : S -> A -> M S) pre post s w :
  for_each body (pre ++ post) s w
  = match for_each body pre s w with
    | (Ok s', w') => for_each body post s' w'
    | (Raise e, w') => (Raise e, w')
    end.
Proof.
  revert s w. induction pre as [|x r IH]; simpl; intros s w; [reflexivity|].
  unfold bind. destruct (body s x w) as [[s'|e] w1]; [apply IH | reflexivity].
Qed.

Lemma for_each_cons {A S} (body : S -> A -> M S) x r s w :
  for_each body (x :: r) s w
  = match body s x w with
    | (Ok s', w') => for_each body r s' w'
    | (Raise e, w') => (Raise e, w')
    end.
Proof. reflexivity. Qed.

(** The first item of a list that fails a test. *)
Lemma first_failure {A} (p : A -> bool) l :
  forallb p l = false ->
  exists pre x post,
    l = pre ++ x :: post /\ forallb p pre = true /\ p x = false.
Proof.
  induction l as [|y r IH]; simpl; [discriminate|].
  destruct (p y) eqn:E; simpl.
  - intros H. destruct (IH H) as (pre & x & post & -> & Hpre & Hx).
    exists (y :: pre), x, post. simpl. rewrite E. auto.
  - intros _. exists [], y, r. auto.
Qed.

Variable cls : doc_class.

Lemma traced_nil w : traced w [] = w.
Proof. unfold traced. rewrite app_nil_r. now destruct w. Qed.

Lemma traced_traced w e1 e2 : traced (traced w e1) e2 = traced w (e1 ++ e2).
Proof. unfold traced. simpl. now rewrite app_assoc. Qed.

(** One round of [for field_name in kwargs]. *)
Lemma set_supplied_run self k v w :
  set_supplied cls self (k, v) w
  = match dict_get k (schema_of cls w) with
    | None => (Raise (ExtraFieldError k v (cls_name cls)), w)
    | Some f =>
        (match Field.validator f v k with
         | inr _ => Ok (dict_set k v self)
         | inl detail => Raise (ValidationError (Rejected detail))
         end, traced w [EValidate k v])
    end.
Proof.
  unfold set_supplied, has_field, schema_of. unfold bind at 1 2. unfold read.
  unfold dict_has. simpl.
  destruct (dict_get k (cells w (fields (nanomongo cls)))) as [f|] eqn:E;
    [|reflexivity].
  unfold bind. rewrite validate_delegates_or_KeyError, E.
  now destruct (Field.validator f v k).
Qed.

(** The loop runs to its end when every item is let through. *)
Lemma supplied_loop_ok kw self w :
  forallb (supplied_ok (schema_of cls w)) kw = true ->
  for_each (set_supplied cls) kw self w
  = (Ok (dict_update self kw), traced w (validations id kw)).
Proof.
  revert self w. induction kw as [|[k v] r IH]; intros self w H.
  - simpl. unfold ret. now rewrite traced_nil.
  - simpl in H. apply andb_true_iff in H. destruct H as [Hx Hr].
    rewrite for_each_cons, set_supplied_run.
    unfold supplied_ok, accepts in Hx. simpl in Hx.
    destruct (dict_get k (schema_of cls w)) as [f|]; [|discriminate].
    destruct (Field.validator f v k); [discriminate|].
    rewrite IH by exact Hr. now rewrite traced_traced.
Qed.

(** The loop leaves at the first item that is not let through: with
    ExtraFieldError when its name is not declared, with the validator's
    ValidationError otherwise. *)
Lemma supplied_loop_stops pre k v post self w :
  forallb (supplied_ok (schema_of cls w)) pre = true ->
  supplied_ok (schema_of cls w) (k, v) = false ->
  for_each (set_supplied cls) (pre ++ (k, v) :: post) self w
  = match dict_get k (schema_of cls w) with
    | None => (Raise (ExtraFieldError k v (cls_name cls)),
               traced w (validations id pre))
    | Some f =>
        (match Field.validator f v k with
         | inl detail => Raise (ValidationError (Rejected detail))
         | inr _ => Raise (ExtraFieldError k v (cls_name cls))
         end, traced w (validations id (pre ++ [(k, v)])))
    end.
Proof.
  intros Hpre Hx. rewrite for_each_app, supplied_loop_ok by assumption.
  rewrite for_each_cons, set_supplied_run.
  change (schema_of cls (traced w (validations id pre))) with (schema_of cls w).
  unfold supplied_ok, accepts in Hx. simpl in Hx.
  destruct (dict_get k (schema_of cls w)) as [f|]; [|reflexivity].
  destruct (Field.validator f v k); [|discriminate].
  rewrite traced_traced. unfold validations. rewrite map_app. reflexivity.
Qed.

Lemma init_unfold args kwargs w :
  BaseDocument.__init__ cls args kwargs w
  = match merge_args args kwargs with
    | Raise e => (Raise e, w)
    | Ok kw =>
        match dict_init args kw with
        | Raise e => (Raise e, w)
        | Ok self =>
            for_each (set_supplied cls) kw
                     (set_defaults (schema_of cls w) self) w
        end
    end.
Proof.
  unfold BaseDocument.__init__, bind, lift, read, schema_of.
  destruct (merge_args args kwargs) as [kw|e]; [|reflexivity].
  now destruct (dict_init args kw).
Qed.

(** Merging the positional mapping into the keyword arguments: a name
    given by keyword keeps its value; a name only the mapping has gets the
    mapping's value. *)
Lemma merge_fold_get (d kwargs : dict pyval) k :
  dict_get k
    (fold_left
       (fun kwargs item =>
          if dict_has (fst item) kwargs then kwargs
          else dict_set (fst item) (snd item) kwargs)
       d kwargs)
  = match dict_get k kwargs with
    | Some v => Some v
    | None => dict_get k d
    end.
Proof.
  revert kwargs. induction d as [|[k0 v0] r IH]; simpl; intros kwargs.
  - now destruct (dict_get k kwargs).
  - rewrite IH. unfold dict_has.
    destruct (dict_get k0 kwargs) as [v1|] eqn:E0.
    + destruct (String.eqb k k0) eqn:E; [|reflexivity].
      apply String.eqb_eq in E. subst k0. now rewrite E0.
    + rewrite dict_get_set. destruct (String.eqb k k0) eqn:E.
      * apply String.eqb_eq in E. subst k0. now rewrite E0.
      * reflexivity.
Qed.

Lemma merge_fold_wf (d kwargs : dict pyval) :
  dict_wf kwargs ->
  dict_wf
    (fold_left
       (fun kwargs item =>
          if dict_has (fst item) kwargs then kwargs
          else dict_set (fst item) (snd item) kwargs)
       d kwargs).
Proof.
  revert kwargs. induction d as [|[k0 v0] r IH]; simpl; intros kwargs Hwf;
    [assumption|].
  apply IH. destruct (dict_has k0 kwargs); [assumption|].
  now apply dict_wf_set.
Qed.

Lemma merge_args_get args kwargs kw k v :
  merge_args args kwargs = Ok kw ->
  dict_get k kwargs = Some v -> dict_get k kw = Some v.
Proof.
  unfold merge_args. destruct args as [|a rest].
  - now intros [= <-].
  - destruct a; try discriminate. intros [= <-] Hk.
    now rewrite merge_fold_get, Hk.
Qed.

Lemma merge_args_wf args kwargs kw :
  merge_args args kwargs = Ok kw -> dict_wf kwargs -> dict_wf kw.
Proof.
  unfold merge_args. destruct args as [|a rest].
  - now intros [= <-].
  - destruct a; try discriminate. intros [= <-]. apply merge_fold_wf.
Qed.

(** With at most one positional argument, [dict.__init__] succeeds
    whenever the merge did. *)
Lemma dict_init_ok args kwargs kw :
  merge_args args kwargs = Ok kw -> length args <= 1 ->
  exists self, dict_init args kw = Ok self.
Proof.
  unfold merge_args, dict_init. destruct args as [|a [|b rest]]; simpl.
  - eauto.
  - destruct a; try discriminate. eauto.
  - lia.
Qed.

Lemma set_defaults_get schema self k :
  dict_wf schema ->
  dict_get k (set_defaults schema self)
  = match dict_get k schema with
    | Some f =>
        match Field.default_value f with
        | Some val => Some (materialize val)
        | None => dict_get k self
        end
    | None => dict_get k self
    end.
Proof.
  unfold set_defaults, dict_wf. revert self.
  induction schema as [|[k0 f0] r IH]; simpl; intros self Hwf; [reflexivity|].
  inversion Hwf as [|? ? Hnotin Hwf']; subst. rewrite (IH _ Hwf').
  destruct (String.eqb k k0) eqn:E.
  - apply String.eqb_eq in E. subst k0.
    apply dict_get_none_keys in Hnotin. rewrite Hnotin.
    destruct (Field.default_value f0); [apply dict_get_set_eq | reflexivity].
  - apply String.eqb_neq in E.
    destruct (dict_get k r) as [f|].
    + destruct (Field.default_value f); [reflexivity|].
      destruct (Field.default_value f0); [now apply dict_get_set_ne|].
      reflexivity.
    + destruct (Field.default_value f0); [now apply dict_get_set_ne|].
      reflexivity.
Qed.

(** The loop over the supplied items either runs to its end or leaves
    with an exception at the first item that is not let through. *)
Lemma supplied_loop_cases kw self w :
  (forallb (supplied_ok (schema_of cls w)) kw = true
   /\ for_each (set_supplied cls) kw self w
      = (Ok (dict_update self kw), traced w (validations id kw)))
  \/ (exists pre k v post e evs,
        kw = pre ++ (k, v) :: post
        /\ forallb (supplied_ok (schema_of cls w)) pre = true
        /\ supplied_ok (schema_of cls w) (k, v) = false
        /\ (evs = pre \/ evs = pre ++ [(k, v)])
        /\ for_each (set_supplied cls) kw self w
           = (Raise e, traced w (validations id evs))).
Proof.
  destruct (forallb (supplied_ok (schema_of cls w)) kw) eqn:Hall.
  - left. split; [reflexivity | now apply supplied_loop_ok].
  - right. apply first_failure in Hall.
    destruct Hall as (pre & [k v] & post & -> & Hpre & Hx).
    pose proof (supplied_loop_stops pre k v post self w Hpre Hx) as Hrun.
    pose proof Hx as Hx'. unfold supplied_ok, accepts in Hx'. simpl in Hx'.
    destruct (dict_get k (schema_of cls w)) as [f|].
    + destruct (Field.validator f v k) as [detail|v']; [|discriminate].
      exists pre, k, v, post, (ValidationError (Rejected detail)),
        (pre ++ [(k, v)]). auto 10.
    + exists pre, k, v, post, (ExtraFieldError k v (cls_name cls)), pre.
      auto 10.
Qed.

(** A construction that succeeds let every supplied item through, holds
    the defaults overwritten by the supplied items, and has called the
    validators on the supplied items only. *)
Lemma init_ok_inv args kwargs w doc w' :
  BaseDocument.__init__ cls args kwargs w = (Ok doc, w') ->
  exists kw self,
    merge_args args kwargs = Ok kw
    /\ dict_init args kw = Ok self
    /\ forallb (supplied_ok (schema_of cls w)) kw = true
    /\ doc = dict_update (set_defaults (schema_of cls w) self) kw
    /\ w' = traced w (validations id kw).
Proof.
  rewrite init_unfold.
  destruct (merge_args args kwargs) as [kw|e] eqn:Em; [|discriminate].
  destruct (dict_init args kw) as [self|e] eqn:Ei; [|discriminate].
  intros H. exists kw, self.
  destruct (supplied_loop_cases kw (set_defaults (schema_of cls w) self) w)
    as [[Hall Hrun]|(pre & k & v & post & e & evs & _ & _ & _ & _ & Hrun)];
    rewrite Hrun in H; [|discriminate].
  injection H as <- <-. repeat split; auto.
Qed.

(** C4, as the code has it. A construction that is given, by keyword, a
    name the schema does not declare never succeeds.  It fails with
    ExtraFieldError for that name when the positional arguments are
    acceptable and every item supplied before it is let through; a
    supplied value that its validator rejects earlier in the iteration
    makes the construction fail with that ValidationError instead. *)
Theorem undeclared_name_fails args kwargs w k :
  dict_has k kwargs = true ->
  dict_has k (schema_of cls w) = false ->
  (exists e, fst (BaseDocument.__init__ cls args kwargs w) = Raise e)
  /\ (forall kw pre v post,
        merge_args args kwargs = Ok kw ->
        length args <= 1 ->
        kw = pre ++ (k, v) :: post ->
        forallb (supplied_ok (schema_of cls w)) pre = true ->
        BaseDocument.__init__ cls args kwargs w
        = (Raise (ExtraFieldError k v (cls_name cls)),
           traced w (validations id pre)))
  /\ (forall kw pre k' v' f detail post,
        merge_args args kwargs = Ok kw ->
        length args <= 1 ->
        kw = pre ++ (k', v') :: post ->
        forallb (supplied_ok (schema_of cls w)) pre = true ->
        dict_get k' (schema_of cls w) = Some f ->
        Field.validator f v' k' = inl detail ->
        fst (BaseDocument.__init__ cls args kwargs w)
        = Raise (ValidationError (Rejected detail))).
Proof.
  intros Hk Hs. split; [|split].
  - destruct (BaseDocument.__init__ cls args kwargs w) as [[doc|e] w'] eqn:E;
      [|simpl; eauto].
    exfalso. apply init_ok_inv in E.
    destruct E as (kw & self & Hm & _ & Hall & _).
    unfold dict_has in Hk.
    destruct (dict_get k kwargs) as [v|] eqn:Ek; [|discriminate].
    pose proof (merge_args_get _ _ _ _ _ Hm Ek) as Hkw.
    apply dict_get_in in Hkw. rewrite forallb_forall in Hall.
    apply Hall in Hkw. unfold supplied_ok, dict_has in *. simpl in Hkw.
    destruct (dict_get k (schema_of cls w)); discriminate.
  - intros kw pre v post Hm Hlen -> Hpre.
    destruct (dict_init_ok _ _ _ Hm Hlen) as [self Hi].
    rewrite init_unfold, Hm, Hi, supplied_loop_stops; auto.
    + unfold dict_has in Hs. now destruct (dict_get k (schema_of cls w)).
    + unfold supplied_ok, dict_has in *. simpl.
      now destruct (dict_get k (schema_of cls w)).
  - intros kw pre k' v' f detail post Hm Hlen -> Hpre Hf Hv.
    destruct (dict_init_ok _ _ _ Hm Hlen) as [self Hi].
    rewrite init_unfold, Hm, Hi, supplied_loop_stops; auto.
    + now rewrite Hf, Hv.
    + unfold supplied_ok, accepts. simpl. now rewrite Hf, Hv.
Qed.

(** C6. A first positional argument that is not a dict makes the
    construction fail with TypeError.  When the construction is given a
    positional mapping and keyword arguments and succeeds, every name
    given by keyword holds the keyword's value in the document, also when
    the mapping has that name too, and a name that only the mapping has
    holds the mapping's value. *)
Theorem positional_mapping_merged d kwargs w doc w' :
  dict_wf kwargs ->
  BaseDocument.__init__ cls [VDict d] kwargs w = (Ok doc, w') ->
  (forall k v, dict_get k kwargs = Some v -> dict_get k doc = Some v)
  /\ (forall k, dict_get k kwargs = None -> dict_has k d = true ->
                dict_get k doc = dict_get k d)
  /\ (forall a rest kwargs0 w0,
        isinstance_dict a = false ->
        BaseDocument.__init__ cls (a :: rest) kwargs0 w0
        = (Raise (TypeError "dict or dict subclass argument expected"), w0)).
Proof.
  intros Hwf H. apply init_ok_inv in H.
  destruct H as (kw & self & Hm & _ & _ & -> & _).
  pose proof (merge_args_wf _ _ _ Hm Hwf) as Hkw.
  simpl in Hm. injection Hm as Hm.
  split; [|split].
  - intros k v Hk. rewrite dict_update_get by assumption.
    rewrite <- Hm at 1. now rewrite merge_fold_get, Hk.
  - intros k Hk Hd. rewrite dict_update_get by assumption.
    rewrite <- Hm at 1. rewrite merge_fold_get, Hk.
    unfold dict_has in Hd. now destruct (dict_get k d).
  - intros a rest kwargs0 w0 Ha. rewrite init_unfold.
    destruct a; try reflexivity. discriminate.
Qed.

(** C10. The constructor stores the default of every declared field that
    has one, and for a callable default the result of calling it,
    without running the field's validator: the only validator calls are
    those on the supplied items, in their order and up to the first
    failure, none of them for a field that was not supplied, and a
    construction whose supplied items are all let through succeeds
    whatever the validators make of the defaults. *)
Theorem defaults_stored_unvalidated args kwargs kw w :
  merge_args args kwargs = Ok kw ->
  length args <= 1 ->
  dict_wf (schema_of cls w) ->
  (forall r w', BaseDocument.__init__ cls args kwargs w = (r, w') ->
                exists pre post,
                  kw = pre ++ post /\ w' = traced w (validations id pre))
  /\ (forallb (supplied_ok (schema_of cls w)) kw = true ->
      exists doc,
        BaseDocument.__init__ cls args kwargs w
        = (Ok doc, traced w (validations id kw))
        /\ forall name f val,
            dict_get name (schema_of cls w) = Some f ->
            Field.default_value f = Some val ->
            dict_has name kw = false ->
            dict_get name doc
            = Some (match val with
                    | VCallable provider => provider tt
                    | _ => val
                    end)
            /\ forall v, ~ In (EValidate name v) (validations id kw)).
Proof.
  intros Hm Hlen Hwf.
  destruct (dict_init_ok _ _ _ Hm Hlen) as [self Hi].
  split.
  - intros r w' H. rewrite init_unfold, Hm, Hi in H.
    destruct (supplied_loop_cases kw (set_defaults (schema_of cls w) self) w)
      as [[Hall Hrun]
         |(pre & k & v & post & e & evs & Hkw & _ & _ & Hevs & Hrun)];
      rewrite Hrun in H; injection H as <- <-.
    + exists kw, []. now rewrite app_nil_r.
    + destruct Hevs as [->| ->].
      * exists pre, ((k, v) :: post). auto.
      * exists (pre ++ [(k, v)]), post. rewrite <- app_assoc. auto.
  - intros Hall. eexists. split.
    + rewrite init_unfold, Hm, Hi. now apply supplied_loop_ok.
    + intros name f val Hf Hd Hn. split.
      * rewrite dict_update_get_notin by assumption.
        rewrite set_defaults_get by assumption. now rewrite Hf, Hd.
      * intros v Hin. unfold validations in Hin. apply in_map_iff in Hin.
        destruct Hin as ([k v0] & [= -> _] & Hin).
        apply (in_map fst) in Hin. apply dict_has_keys in Hin.
        simpl in Hin. congruence.
Qed.

End ConstructionFacts.

(** ** Full validation and saving *)

Section ValidationFacts.

Import Nanomongo BaseDocument.

Variable cls : doc_class.

Lemma check_declared_run u k v w :
  check_declared cls u (k, v) w
  = if dict_has k (schema_of cls w) then (Ok tt, w)
    else (Raise (ValidationError (ExtraField k v)), w).
Proof.
  unfold check_declared, has_field, bind, read, ret, raise, schema_of.
  simpl. now destruct (dict_has k _).
Qed.

Lemma declared_loop_ok self w :
  all_declared (schema_of cls w) self = true ->
  for_each (check_declared cls) self tt w = (Ok tt, w).
Proof.
  unfold all_declared. induction self as [|[k v] r IH]; intros H;
    [reflexivity|].
  simpl in H. apply andb_true_iff in H. destruct H as [Hk Hr].
  rewrite for_each_cons, check_declared_run, Hk. auto.
Qed.

Lemma declared_loop_stops pre k v post w :
  all_declared (schema_of cls w) pre = true ->
  dict_has k (schema_of cls w) = false ->
  for_each (check_declared cls) (pre ++ (k, v) :: post) tt w
  = (Raise (ValidationError (ExtraField k v)), w).
Proof.
  intros Hpre Hk. rewrite for_each_app, declared_loop_ok by assumption.
  now rewrite for_each_cons, check_declared_run, Hk.
Qed.

Lemma check_field_run self u name f w :
  check_field self u (name, f) w
  = match dict_get name self with
    | Some value =>
        (match Field.validator f value name with
         | inr _ => Ok tt
         | inl detail => Raise (ValidationError (Rejected detail))
         end, traced w [EValidate name value])
    | None =>
        if Field.required f
        then (Raise (ValidationError (RequiredMissing name)), w)
        else (Ok tt, w)
    end.
Proof.
  unfold check_field. simpl. destruct (dict_get name self) as [value|].
  - unfold call_validator, bind, emit, traced. simpl.
    now destruct (Field.validator f value name).
  - now destruct (Field.required f).
Qed.

Lemma field_loop_ok self schema w :
  forallb (field_ok self) schema = true ->
  for_each (check_field self) schema tt w
  = (Ok tt, traced w (checked self schema)).
Proof.
  revert w. induction schema as [|[name f] r IH]; intros w H.
  - simpl. unfold ret. now rewrite traced_nil.
  - simpl in H. apply andb_true_iff in H. destruct H as [Hx Hr].
    rewrite for_each_cons, check_field_run.
    unfold field_ok, accepts in Hx. unfold checked. simpl in *.
    destruct (dict_get name self) as [value|].
    + destruct (Field.validator f value name); [discriminate|].
      rewrite IH by exact Hr. now rewrite traced_traced.
    + destruct (Field.required f); [discriminate|].
      now rewrite IH by exact Hr.
Qed.

Lemma field_loop_stops self pre name f post w :
  forallb (field_ok self) pre = true ->
  field_ok self (name, f) = false ->
  exists m evs,
    for_each (check_field self) (pre ++ (name, f) :: post) tt w
    = (Raise (ValidationError m), traced w (checked self pre ++ evs))
    /\ calls evs = []
    /\ (dict_get name self = None -> m = RequiredMissing name /\ evs = []).
Proof.
  intros Hpre Hx. rewrite for_each_app, field_loop_ok by assumption.
  rewrite for_each_cons, check_field_run.
  unfold field_ok, accepts in Hx. simpl in Hx.
  destruct (dict_get name self) as [value|].
  - destruct (Field.validator f value name) as [detail|]; [|discriminate].
    exists (Rejected detail), [EValidate name value].
    rewrite traced_traced. repeat split; discriminate.
  - destruct (Field.required f); [|discriminate].
    exists (RequiredMissing name), []. rewrite app_nil_r. auto.
Qed.

Lemma calls_checked self schema : calls (checked self schema) = [].
Proof.
  unfold checked. induction schema as [|[name f] r IH]; simpl; [reflexivity|].
  now destruct (dict_get name self).
Qed.

Lemma calls_app t1 t2 : calls (t1 ++ t2) = calls t1 ++ calls t2.
Proof.
  induction t1 as [|[k v|c] r IH]; simpl; [reflexivity | assumption|].
  now rewrite IH.
Qed.

Variable validate_hook : dict pyval -> M pyval.

Lemma validate_all_unfold self w :
  validate_all validate_hook cls self w
  = match for_each (check_declared cls) self tt w with
    | (Ok _, w1) =>
        match for_each (check_field self) (schema_of cls w1) tt w1 with
        | (Ok _, w2) => validate_hook self w2
        | (Raise e, w2) => (Raise e, w2)
        end
    | (Raise e, w1) => (Raise e, w1)
    end.
Proof.
  unfold validate_all, bind, read, schema_of.
  destruct (for_each (check_declared cls) self tt w) as [[u|e] w1];
    reflexivity.
Qed.

(** [validate_all] reaches the hook exactly when no key is undeclared and
    every declared field is let through. *)
Lemma validate_all_passes self w :
  all_declared (schema_of cls w) self = true ->
  forallb (field_ok self) (schema_of cls w) = true ->
  validate_all validate_hook cls self w
  = validate_hook self (traced w (checked self (schema_of cls w))).
Proof.
  intros Hd Hf. rewrite validate_all_unfold, declared_loop_ok by assumption.
  now rewrite field_loop_ok by assumption.
Qed.

(** Otherwise it fails with ValidationError and issues no call. *)
Lemma validate_all_fails self w :
  all_declared (schema_of cls w) self
  && forallb (field_ok self) (schema_of cls w) = false ->
  exists m evs,
    validate_all validate_hook cls self w
    = (Raise (ValidationError m), traced w evs)
    /\ calls evs = [].
Proof.
  intros H. rewrite validate_all_unfold.
  destruct (all_declared (schema_of cls w) self) eqn:Hd.
  - simpl in H. rewrite declared_loop_ok by assumption.
    apply first_failure in H.
    destruct H as (pre & [name f] & post & Hs & Hpre & Hx). rewrite Hs.
    destruct (field_loop_stops self pre name f post w Hpre Hx)
      as (m & evs & Hrun & Hc & _).
    rewrite Hrun. exists m, (checked self pre ++ evs). split; [reflexivity|].
    now rewrite calls_app, calls_checked, Hc.
  - unfold all_declared in Hd. apply first_failure in Hd.
    destruct Hd as (pre & [k v] & post & -> & Hpre & Hk). simpl in Hk.
    rewrite declared_loop_stops by assumption.
    exists (ExtraField k v), []. now rewrite traced_nil.
Qed.

Lemma all_declared_set schema k v self :
  all_declared schema self = true ->
  dict_has k schema = true ->
  all_declared schema (dict_set k v self) = true.
Proof.
  unfold all_declared. intros H Hk.
  induction self as [|[k0 v0] r IH]; simpl in *.
  - now rewrite Hk.
  - apply andb_true_iff in H. destruct H as [H0 Hr].
    destruct (String.eqb k k0); simpl.
    + now rewrite Hk, Hr.
    + now rewrite H0, IH.
Qed.

Lemma save_unfold reply self kwargs w :
  save validate_hook reply cls self kwargs w
  = match validate_all validate_hook cls self w with
    | (Ok _, w1) =>
        match BaseDocument.get_collection cls with
        | Ok coll =>
            (reply (CollSave coll self kwargs),
             traced w1 [ECall (CollSave coll self kwargs)])
        | Raise e => (Raise e, w1)
        end
    | (Raise e, w1) => (Raise e, w1)
    end.
Proof.
  unfold save, bind, lift, emit, traced.
  destruct (validate_all validate_hook cls self w) as [[x|e] w1];
    [|reflexivity].
  now destruct (BaseDocument.get_collection cls).
Qed.

End ValidationFacts.

Section ValidationClaims.

Import Nanomongo BaseDocument.

Variable cls : doc_class.
Variable validate_hook : dict pyval -> M pyval.
Variable collection_reply : store_call -> result pyval.

Lemma wf_prefix_other_names {A} (pre post : dict A) name f :
  dict_wf (pre ++ (name, f) :: post) ->
  forall item, In item pre -> fst item <> name.
Proof.
  unfold dict_wf, keys. rewrite map_app. simpl. intros Hwf item Hin Heq.
  apply NoDup_remove_2 in Hwf. apply Hwf, in_or_app. left.
  rewrite <- Heq. now apply in_map.
Qed.

(** C5. On an instance that lacks a required declared field,
    [validate_all] fails with ValidationError, and when that is the
    instance's only defect the error names the missing field; after the
    field is added with a value its validator accepts, [validate_all]
    (with the hook [BaseDocument] defines) succeeds.  More precisely the
    error names the first required field that is missing once no key is
    undeclared and the fields declared before it are let through.  On an
    instance with a key that the schema does not declare, [validate_all]
    fails with ValidationError naming the first such key and its value,
    whatever else the instance holds or lacks. *)
Theorem validate_all_required_and_undeclared w :
  (forall self name f,
     dict_get name (schema_of cls w) = Some f ->
     Field.required f = true ->
     dict_get name self = None ->
     exists m, fst (validate_all validate_hook cls self w)
               = Raise (ValidationError m))
  /\ (forall self name f,
        dict_wf (schema_of cls w) ->
        dict_get name (schema_of cls w) = Some f ->
        Field.required f = true ->
        dict_get name self = None ->
        all_declared (schema_of cls w) self = true ->
        (forall item, In item (schema_of cls w) -> fst item <> name ->
                      field_ok self item = true) ->
        fst (validate_all validate_hook cls self w)
        = Raise (ValidationError (RequiredMissing name))
        /\ forall value,
             accepts f value name = true ->
             validate_all BaseDocument.validate cls
                          (dict_set name value self) w
             = (Ok VNone,
                traced w (checked (dict_set name value self)
                                  (schema_of cls w))))
  /\ (forall self name f pre post,
        Field.required f = true ->
        dict_get name self = None ->
        all_declared (schema_of cls w) self = true ->
        schema_of cls w = pre ++ (name, f) :: post ->
        forallb (field_ok self) pre = true ->
        validate_all validate_hook cls self w
        = (Raise (ValidationError (RequiredMissing name)),
           traced w (checked self pre)))
  /\ (forall self pre k v post,
        self = pre ++ (k, v) :: post ->
        all_declared (schema_of cls w) pre = true ->
        dict_has k (schema_of cls w) = false ->
        validate_all validate_hook cls self w
        = (Raise (ValidationError (ExtraField k v)), w)).
Proof.
  assert (Hbad : forall self name f,
    Field.required f = true -> dict_get name self = None ->
    field_ok self (name, f) = false).
  { intros self name f Hreq Habs. unfold field_ok. simpl.
    now rewrite Habs, Hreq. }
  assert (Hnames : forall self name f pre post,
    Field.required f = true ->
    dict_get name self = None ->
    all_declared (schema_of cls w) self = true ->
    schema_of cls w = pre ++ (name, f) :: post ->
    forallb (field_ok self) pre = true ->
    validate_all validate_hook cls self w
    = (Raise (ValidationError (RequiredMissing name)),
       traced w (checked self pre))).
  { intros self name f pre post Hreq Habs Hd Hs Hpre.
    rewrite validate_all_unfold, declared_loop_ok by assumption.
    rewrite Hs.
    destruct (field_loop_stops self pre name f post w Hpre
                               (Hbad self name f Hreq Habs))
      as (m & evs & Hrun & _ & Hm).
    destruct (Hm Habs) as [-> ->]. rewrite Hrun, app_nil_r. reflexivity. }
  split; [|split; [|split]].
  - intros self name f Hf Hreq Habs.
    destruct (validate_all_fails cls validate_hook self w)
      as (m & evs & Hrun & _).
    + apply andb_false_iff. right. apply dict_get_in in Hf.
      destruct (forallb (field_ok self) (schema_of cls w)) eqn:E;
        [|reflexivity].
      rewrite forallb_forall in E.
      specialize (Hbad self name f Hreq Habs). rewrite (E _ Hf) in Hbad.
      discriminate.
    + exists m. now rewrite Hrun.
  - intros self name f Hwf Hf Hreq Habs Hd Hrest. split.
    + pose proof (dict_get_in _ _ _ Hf) as Hin.
      apply in_split in Hin. destruct Hin as (pre & post & Hs).
      rewrite (Hnames self name f pre post); auto.
      apply forallb_forall. intros item Hitem. apply Hrest.
      * rewrite Hs. apply in_or_app. now left.
      * rewrite Hs in Hwf. now apply (wf_prefix_other_names pre post name f).
    + intros value Hacc. rewrite validate_all_passes.
      * reflexivity.
      * apply all_declared_set; [assumption|].
        unfold dict_has. now rewrite Hf.
      * apply forallb_forall. intros [n g] Hin.
        destruct (String.eqb n name) eqn:E.
        -- apply String.eqb_eq in E. subst n.
           apply (in_dict_get _ _ _ Hwf) in Hin.
           assert (g = f) by congruence. subst g.
           unfold field_ok. simpl. now rewrite dict_get_set_eq.
        -- apply String.eqb_neq in E.
           specialize (Hrest _ Hin E). unfold field_ok in *. simpl in *.
           now rewrite dict_get_set_ne.
  - exact Hnames.
  - intros self pre k v post -> Hpre Hk.
    rewrite validate_all_unfold.
    now rewrite declared_loop_stops by assumption.
Qed.

(** C3, as the code has it. [save] runs [validate_all] and, when that
    succeeds and the collection resolves, issues exactly one call on the
    collection: a save of the whole current field mapping, with the
    keyword arguments ([atomic] among them) passed on as they are.  It
    keeps no snapshot and computes no diff: a second [save] without any
    change in between issues the same full save again, and no call that
    [save] issues is a partial update. *)
Theorem save_issues_full_document_save self kwargs coll w :
  all_declared (schema_of cls w) self = true ->
  forallb (field_ok self) (schema_of cls w) = true ->
  BaseDocument.get_collection cls = Ok coll ->
  let call := CollSave coll self kwargs in
  let evs := checked self (schema_of cls w) ++ [ECall call] in
  save BaseDocument.validate collection_reply cls self kwargs w
  = (collection_reply call, traced w evs)
  /\ calls evs = [call]
  /\ save BaseDocument.validate collection_reply cls self kwargs
          (traced w evs)
     = (collection_reply call, traced (traced w evs) evs)
  /\ (forall self0 kwargs0 w0 r w',
        save BaseDocument.validate collection_reply cls self0 kwargs0 w0
        = (r, w') ->
        exists evs0,
          w' = traced w0 evs0
          /\ forall c, In c (calls evs0) ->
                       exists coll0, c = CollSave coll0 self0 kwargs0).
Proof.
  intros Hd Hf Hcoll call evs.
  assert (Hsave : forall w1,
    schema_of cls w1 = schema_of cls w ->
    save BaseDocument.validate collection_reply cls self kwargs w1
    = (collection_reply call, traced w1 evs)).
  { intros w1 Hs. rewrite save_unfold, validate_all_passes, Hcoll;
      rewrite ?Hs; try assumption.
    unfold BaseDocument.validate, ret. now rewrite traced_traced. }
  split; [|split; [|split]].
  - now apply Hsave.
  - subst evs. now rewrite calls_app, calls_checked.
  - now apply Hsave.
  - intros self0 kwargs0 w0 r w' H. rewrite save_unfold in H.
    destruct (all_declared (schema_of cls w0) self0
              && forallb (field_ok self0) (schema_of cls w0)) eqn:E.
    + apply andb_true_iff in E. destruct E as [E1 E2].
      rewrite validate_all_passes in H by assumption.
      unfold BaseDocument.validate, ret in H.
      destruct (BaseDocument.get_collection cls) as [coll0|e].
      * injection H as <- <-. rewrite traced_traced. eexists.
        split; [reflexivity|]. intros c Hc.
        rewrite calls_app, calls_checked in Hc. simpl in Hc.
        destruct Hc as [<-|[]]. eauto.
      * injection H as <- <-. eexists. split; [reflexivity|].
        intros c Hc. now rewrite calls_checked in Hc.
    + destruct (validate_all_fails cls BaseDocument.validate self0 w0 E)
        as (m & evs0 & Hrun & Hc).
      rewrite Hrun in H. injection H as <- <-. exists evs0.
      split; [reflexivity|]. intros c Hin. now rewrite Hc in Hin.
Qed.

End ValidationClaims.

(** ** The worked declaration *)

Section Worked.

Import Example.

Example declare_BaseDocument :
  declare "BaseDocument" None [] [] empty_world = (Ok BaseDocument_cls, w1).
Proof. reflexivity. Qed.

Example declare_Doc :
  declare "Doc" (Some (nanomongo BaseDocument_cls)) Doc_dct Doc_kwargs w1
  = (Ok Doc_cls, w2).
Proof. reflexivity. Qed.

Example declare_Sub :
  declare "Sub" (Some (nanomongo Doc_cls)) Sub_dct [] w2 = (Ok Sub_cls, w3).
Proof. reflexivity. Qed.

Example Doc_schema_keys :
  keys (schema_of Doc_cls w2) = ["_id"; "foo"; "bar"; "moo"].
Proof. reflexivity. Qed.

(** A diamond: both bases of the declaration derive from one class. *)
Example diamond_resolved :
  let A := PyClass 10 [PyObject] in
  let B := PyClass 11 [A] in
  let C := PyClass 12 [A] in
  DocumentMeta._get_bases (Tuple [B; C]) = BasesTuple [B; A; C].
Proof. reflexivity. Qed.

Example Doc_bases :
  DocumentMeta.__new__ DotNotationMixin (Tuple [BaseDocument_class])
                       Doc_kwargs
  = Tuple [DotNotationMixin; BaseDocument_class; dict_class].
Proof. reflexivity. Qed.

Example construct_Doc :
  fst (BaseDocument.__init__ Doc_cls []
         [("foo", VStr "foo value"); ("bar", VInt 42)] w2)
  = Ok [("foo", VStr "foo value"); ("bar", VInt 42)].
Proof. reflexivity. Qed.

Lemma identifier_field_injected_witness :
  count_key "_id" (schema_of BaseDocument_cls w1) = 1
  /\ Field.required
       (match dict_get "_id" (schema_of BaseDocument_cls w1) with
        | Some f => f
        | None => foo
        end) = false.
Proof.
  destruct (identifier_field_injected valid_client ObjectId_validator lower
              "BaseDocument" None [] [] empty_world BaseDocument_cls w1
              eq_refl) as (Hone & Hinj & _).
  split; [exact Hone|].
  destruct (Hinj eq_refl (fun f H => H)) as (f & Hf & _ & Hreq & _).
  unfold schema_of. rewrite Hf. exact Hreq.
Defined.

Lemma Doc_schema_ok : schema_ok w2 (nanomongo Doc_cls).
Proof.
  pose proof declare_Doc as H. unfold declare in H.
  exact (proj1 (init_schema_ok valid_client ObjectId_validator lower
                               _ _ _ _ _ _ _ H)).
Qed.

Lemma subtype_fields_merge_witness :
  dict_get "foo" (schema_of Sub_cls w3) = Some foo_with_default
  /\ dict_get "bar" (schema_of Sub_cls w3)
     = dict_get "bar" (schema_of Doc_cls w2)
  /\ schema_of Doc_cls w3 = schema_of Doc_cls w2.
Proof.
  destruct (subtype_fields_merge valid_client ObjectId_validator lower
              "Sub" (nanomongo Doc_cls) Sub_dct [] w2 Sub_cls w3
              eq_refl Doc_schema_ok (dict_wfb_spec Sub_dct eq_refl))
    as (Hown & Hpar & _ & _ & _ & Hsame & _).
  split; [|split].
  - apply Hown. reflexivity.
  - apply Hpar. intros f. vm_compute. discriminate.
  - exact Hsame.
Defined.

Lemma valid_client_truthy c : valid_client c = true -> truthy c = true.
Proof. destruct c; simpl; congruence. Qed.

Lemma Doc_coords_ok : coords_ok valid_client (nanomongo Doc_cls).
Proof. unfold coords_ok. simpl. auto. Qed.

Lemma get_collection_checks_in_order_witness :
  Nanomongo.get_collection (nanomongo Doc_cls) = Ok Doc_collection
  /\ Nanomongo.get_collection (nanomongo Sub_cls)
     = Raise (ConfigurationError "Mongo client not set").
Proof.
  split.
  - rewrite (get_collection_checks_in_order valid_client valid_client_truthy
               (nanomongo Doc_cls) Doc_coords_ok).
    reflexivity.
  - reflexivity.
Defined.

(** C8, the claim at a name that is not registered: the lookup raises
    KeyError, not UnknownFieldError. *)
Lemma validate_unregistered_raises_KeyError :
  dict_has "zzz" (schema_of Doc_cls w2) = false
  /\ Nanomongo.validate (nanomongo Doc_cls) "zzz" (VInt 1) w2
     = (Raise (KeyError "zzz"), w2)
  /\ forall name,
       fst (Nanomongo.validate (nanomongo Doc_cls) "zzz" (VInt 1) w2)
       <> Raise (UnknownFieldError name).
Proof.
  split; [reflexivity | split; [reflexivity|]].
  intros name. vm_compute. discriminate.
Qed.

(** C4, the claim at [Doc(foo=42, zzz=1)]: [zzz] is not declared, but the
    value of [foo], which comes first, is rejected, and the construction
    fails with ValidationError, not ExtraFieldError. *)
Lemma undeclared_after_rejected_value :
  dict_has "zzz" [("foo", VInt 42); ("zzz", VInt 1)] = true
  /\ dict_has "zzz" (schema_of Doc_cls w2) = false
  /\ fst (BaseDocument.__init__ Doc_cls []
            [("foo", VInt 42); ("zzz", VInt 1)] w2)
     = Raise (ValidationError (Rejected "not a str"))
  /\ forall k v c,
       fst (BaseDocument.__init__ Doc_cls []
              [("foo", VInt 42); ("zzz", VInt 1)] w2)
       <> Raise (ExtraFieldError k v c).
Proof.
  split; [reflexivity | split; [reflexivity | split; [reflexivity|]]].
  intros k v c. vm_compute. discriminate.
Qed.

Lemma undeclared_name_fails_witness :
  BaseDocument.__init__ Doc_cls [] [("foo", VStr "x"); ("zzz", VInt 1)] w2
  = (Raise (ExtraFieldError "zzz" (VInt 1) "Doc"),
     traced w2 [EValidate "foo" (VStr "x")]).
Proof.
  destruct (undeclared_name_fails Doc_cls []
              [("foo", VStr "x"); ("zzz", VInt 1)] w2 "zzz"
              eq_refl eq_refl) as (_ & Hextra & _).
  apply (Hextra [("foo", VStr "x"); ("zzz", VInt 1)]
                [("foo", VStr "x")] (VInt 1) []); try reflexivity.
  simpl. lia.
Defined.

Lemma positional_mapping_merged_witness :
  let doc := [("foo", VStr "named"); ("bar", VInt 1)] in
  dict_get "foo" doc = Some (VStr "named")
  /\ dict_get "bar" doc = Some (VInt 1)
  /\ BaseDocument.__init__ Doc_cls [VInt 3] [("foo", VStr "named")] w2
     = (Raise (TypeError "dict or dict subclass argument expected"), w2).
Proof.
  destruct (positional_mapping_merged Doc_cls
              [("foo", VStr "positional"); ("bar", VInt 1)]
              [("foo", VStr "named")] w2
              [("foo", VStr "named"); ("bar", VInt 1)]
              (traced w2 [EValidate "foo" (VStr "named");
                          EValidate "bar" (VInt 1)])
              (dict_wfb_spec [("foo", VStr "named")] eq_refl) eq_refl)
    as (Hnamed & Hpos & Htype).
  split; [|split].
  - apply Hnamed. reflexivity.
  - rewrite Hpos; reflexivity.
  - apply Htype. reflexivity.
Defined.

Lemma defaults_stored_unvalidated_witness :
  exists doc,
    BaseDocument.__init__ Tagged_cls [] [("title", VStr "t")] w5
    = (Ok doc, traced w5 [EValidate "title" (VStr "t")])
    /\ dict_get "tags" doc = Some (VList [])
    /\ dict_get "count" doc = Some (VInt 0)
    /\ dict_get "title" doc = Some (VStr "t").
Proof.
  destruct (defaults_stored_unvalidated Tagged_cls [] [("title", VStr "t")]
              [("title", VStr "t")] w5 eq_refl (le_S _ _ (le_n 0))
              (dict_wfb_spec (schema_of Tagged_cls w5) eq_refl))
    as (_ & Hok).
  destruct (Hok eq_refl) as (doc & Hrun & Hdef).
  exists doc. split; [exact Hrun | split; [|split]].
  - exact (proj1 (Hdef "tags" tags (VCallable (fun _ => VList []))
                       eq_refl eq_refl eq_refl)).
  - exact (proj1 (Hdef "count" count (VInt 0) eq_refl eq_refl eq_refl)).
  - injection Hrun as <-. reflexivity.
Defined.

(** The checks stop at the first defect: with two required fields missing
    the error names the first, and adding that one leaves the other to be
    reported; an undeclared key is reported before any missing field. *)
Example validation_stops_at_first_defect :
  fst (BaseDocument.validate_all BaseDocument.validate Doc_cls [] w2)
  = Raise (ValidationError (RequiredMissing "foo"))
  /\ fst (BaseDocument.validate_all BaseDocument.validate Doc_cls
            (dict_set "foo" (VStr "x") []) w2)
     = Raise (ValidationError (RequiredMissing "moo"))
  /\ fst (BaseDocument.validate_all BaseDocument.validate Doc_cls
            [("zzz", VInt 1)] w2)
     = Raise (ValidationError (ExtraField "zzz" (VInt 1))).
Proof. repeat split. Qed.

Lemma validate_all_required_and_undeclared_witness :
  fst (BaseDocument.validate_all BaseDocument.validate Doc_cls
         [("moo", VList [])] w2)
  = Raise (ValidationError (RequiredMissing "foo"))
  /\ fst (BaseDocument.validate_all BaseDocument.validate Doc_cls
            (dict_set "foo" (VStr "x") [("moo", VList [])]) w2)
     = Ok VNone
  /\ BaseDocument.validate_all BaseDocument.validate Doc_cls
       [("moo", VList []); ("zzz", VInt 1)] w2
     = (Raise (ValidationError (ExtraField "zzz" (VInt 1))), w2).
Proof.
  destruct (validate_all_required_and_undeclared Doc_cls
              BaseDocument.validate w2) as (_ & Honly & _ & Hextra).
  assert (Hrest : forall item,
            In item (schema_of Doc_cls w2) -> fst item <> "foo" ->
            field_ok [("moo", VList [])] item = true).
  { intros [n g] [H|[H|[H|[H|[]]]]] Hne; injection H as <- <-;
      try reflexivity.
    now elim Hne. }
  destruct (Honly [("moo", VList [])] "foo" foo
              (dict_wfb_spec (schema_of Doc_cls w2) eq_refl)
              eq_refl eq_refl eq_refl eq_refl Hrest) as (Hnames & Hadded).
  split; [exact Hnames | split].
  - now rewrite (Hadded (VStr "x") eq_refl).
  - apply (Hextra _ [("moo", VList [])] "zzz" (VInt 1) []); reflexivity.
Defined.

(** C3, the claim at a stored [Doc] after [foo] was set and [bar]
    removed: [save(atomic=True)] issues one save of the whole document,
    not a partial update with a set for [foo] and an unset for [bar]; a
    second [save(atomic=True)] issues the same full save once more. *)
Lemma save_atomic_issues_no_partial_update :
  let first := BaseDocument.save BaseDocument.validate reply Doc_cls
                 changed atomic w2 in
  let second := BaseDocument.save BaseDocument.validate reply Doc_cls
                  changed atomic (snd first) in
  calls (trace w2) = []
  /\ calls (trace (snd first)) = [CollSave Doc_collection changed atomic]
  /\ (forall coll filter,
        calls (trace (snd first))
        <> [CollUpdate coll filter [("foo", VStr "new foo")] ["bar"]])
  /\ calls (trace (snd second))
     = [CollSave Doc_collection changed atomic;
        CollSave Doc_collection changed atomic].
Proof.
  split; [reflexivity | split; [reflexivity | split; [|reflexivity]]].
  intros coll filter. vm_compute. discriminate.
Qed.

Lemma save_issues_full_document_save_witness :
  BaseDocument.save BaseDocument.validate reply Doc_cls changed atomic w2
  = (Ok VNone,
     traced w2 (checked changed (schema_of Doc_cls w2)
                ++ [ECall (CollSave Doc_collection changed atomic)])).
Proof.
  destruct (save_issues_full_document_save Doc_cls reply changed atomic
              Doc_collection w2 eq_refl eq_refl eq_refl) as (Hrun & _).
  exact Hrun.
Defined.

End Worked.

(** * Further properties of the registry *)

Section SortingFacts.

Lemma insert_sorted_perm x l : Permutation (x :: l) (insert_sorted x l).
Proof.
  induction l as [|y r IH]; simpl; [reflexivity|].
  destruct (String.leb x y); [reflexivity|].
  rewrite perm_swap. now constructor.
Qed.

Lemma sorted_perm l : Permutation l (sorted l).
Proof.
  induction l as [|x r IH]; simpl; [constructor|].
  rewrite <- insert_sorted_perm. now constructor.
Qed.

Lemma insert_sorted_hd x y l :
  str_le y x -> HdRel str_le y l -> HdRel str_le y (insert_sorted x l).
Proof.
  intros Hyx Hl. destruct l as [|z r]; simpl; [now constructor|].
  inversion Hl; subst. destruct (String.leb x z); now constructor.
Qed.

Lemma insert_sorted_Sorted x l :
  Sorted str_le l -> Sorted str_le (insert_sorted x l).
Proof.
  induction l as [|y r IH]; simpl; intros Hs.
  - repeat constructor.
  - inversion Hs as [|? ? Hr Hhd]; subst.
    destruct (String.leb x y) eqn:E.
    + constructor; [assumption | now constructor].
    + constructor; [now apply IH|]. apply insert_sorted_hd; [|assumption].
      destruct (String.leb_total x y) as [H|H]; [congruence | exact H].
Qed.

Lemma sorted_Sorted l : Sorted str_le (sorted l).
Proof.
  induction l as [|x r IH]; simpl; [constructor|].
  now apply insert_sorted_Sorted.
Qed.

End SortingFacts.

Section RegistryMore.

Import Nanomongo.

Lemma collect_rejects fields args v :
  In (ArgOther v) args ->
  collect fields args = Raise (TypeError "expected input of dictionaries").
Proof.
  revert fields. induction args as [|a r IH]; simpl; intros fields; [tauto|].
  intros [->|Hin]; [reflexivity|]. destruct a; [now apply IH | reflexivity].
Qed.

(** X1. [from_dicts] insists on its input: called without a dictionary it
    fails with TypeError, and so it does when any of its arguments is not a
    dictionary, whatever the other arguments hold; in both cases no
    registry and no field mapping come into being. *)
Theorem from_dicts_rejects_bad_input args v w :
  In (ArgOther v) args ->
  from_dicts args w
  = (Raise (TypeError "expected input of dictionaries"), w)
  /\ from_dicts [] w
     = (Raise (TypeError "from_dicts takes at least 1 positional argument"),
        w).
Proof.
  intros Hin. split; [|reflexivity].
  destruct args as [|a r]; [destruct Hin|].
  unfold from_dicts, bind, lift.
  now rewrite (collect_rejects [] (a :: r) v Hin).
Qed.

Lemma collect_dicts fields ds :
  collect fields (map ArgDict ds) = Ok (fold_left collect_items ds fields).
Proof.
  revert fields. induction ds as [|d r IH]; simpl; intros fields;
    [reflexivity | apply IH].
Qed.

Lemma collect_items_keys fields dct k :
  In k (keys (collect_items fields dct))
  <-> In k (keys fields) \/ exists f, In (k, AField f) dct.
Proof.
  unfold collect_items. revert fields.
  induction dct as [|[k0 a] r IH]; simpl; intros fields.
  - split; [auto | intros [H|[f []]]; assumption].
  - rewrite IH. destruct a as [f0|v0].
    + rewrite <- !dict_has_keys, dict_has_set. split.
      * intros [H|[f H]]; [|eauto].
        apply orb_true_iff in H. destruct H as [H|H]; [|auto].
        apply String.eqb_eq in H. subst. eauto.
      * intros [H|[f [H|H]]].
        -- left. rewrite H. apply orb_true_r.
        -- injection H as <- <-. left. now rewrite String.eqb_refl.
        -- eauto.
    + split.
      * intros [H|[f H]]; eauto.
      * intros [H|[f [H|H]]]; [auto | discriminate | eauto].
Qed.

Lemma fold_collect_items_wf ds fields :
  dict_wf fields -> dict_wf (fold_left collect_items ds fields).
Proof.
  revert fields. induction ds as [|d r IH]; simpl; intros fields Hwf;
    [assumption|].
  apply IH. now apply collect_items_wf.
Qed.

Lemma fold_collect_items_keys ds fields k :
  In k (keys (fold_left collect_items ds fields))
  <-> In k (keys fields) \/ exists d f, In d ds /\ In (k, AField f) d.
Proof.
  revert fields. induction ds as [|d r IH]; simpl; intros fields.
  - split; [auto | intros [H|(d & f & [] & _)]; assumption].
  - rewrite IH, collect_items_keys. split.
    + intros [[H|[f H]]|(d' & f & H1 & H2)]; eauto 6.
    + intros [H|(d' & f & [<-|H1] & H2)]; eauto 6.
Qed.

(** X2. Given one or more dictionaries, [from_dicts] always succeeds: it
    returns a registry without storage coordinates whose field mapping is a
    new dictionary object, leaving every other object as it was.  The
    mapping has no repeated name and holds exactly the names under which
    some argument has a [Field] (values that are not Fields are filtered
    out); where the last dictionary declares a Field under a name, that
    Field is the one kept. *)
Theorem from_dicts_keeps_only_fields ds w :
  ds <> [] ->
  exists nm w',
    from_dicts (map ArgDict ds) w = (Ok nm, w')
    /\ nm = mk (next w) VNone VNone VNone
    /\ next w' = S (next w)
    /\ trace w' = trace w
    /\ (forall l, l <> next w -> cells w' l = cells w l)
    /\ dict_wf (cells w' (fields nm))
    /\ (forall k, In k (keys (cells w' (fields nm)))
                  <-> exists d f, In d ds /\ In (k, AField f) d)
    /\ (forall pre d k f,
          ds = pre ++ [d] -> dict_wf d -> dict_get k d = Some (AField f) ->
          dict_get k (cells w' (fields nm)) = Some f).
Proof.
  intros Hne. destruct ds as [|d0 r]; [congruence|].
  eexists. eexists. split.
  - unfold from_dicts. simpl map. cbv iota.
    unfold bind, lift. rewrite (collect_dicts [] (d0 :: r)). reflexivity.
  - simpl. unfold upd. rewrite Nat.eqb_refl. repeat split.
    + intros l Hl. apply Nat.eqb_neq in Hl. now rewrite Hl.
    + apply (fold_collect_items_wf (d0 :: r)), dict_wf_nil.
    + intros H. apply (fold_collect_items_keys (d0 :: r)) in H.
      destruct H as [[]|H]. exact H.
    + intros H. apply (fold_collect_items_keys (d0 :: r)). now right.
    + intros pre d k f Hds Hwf Hk.
      change (fold_left collect_items r (collect_items [] d0))
        with (fold_left collect_items (d0 :: r) []).
      rewrite Hds, fold_left_app. simpl.
      rewrite collect_items_get by assumption. now rewrite Hk.
Qed.

(** X3. [list_fields] returns the names of the field mapping in ascending
    order, each as often as the mapping has it (once, in a mapping without
    repeated keys), and a name is listed exactly when [has_field] holds of
    it; the world is left as it was. *)
Theorem list_fields_sorted_names nm w :
  exists names,
    list_fields nm w = (Ok names, w)
    /\ Sorted str_le names
    /\ Permutation (keys (cells w (fields nm))) names
    /\ (forall k, In k names <-> has_field nm k w = (Ok true, w)).
Proof.
  exists (sorted (keys (cells w (fields nm)))). repeat split.
  - apply sorted_Sorted.
  - apply sorted_perm.
  - intros Hin. unfold has_field, bind, read, ret.
    apply (Permutation_in _ (Permutation_sym (sorted_perm _))) in Hin.
    apply dict_has_keys in Hin. now rewrite Hin.
  - unfold has_field, bind, read, ret. intros [= H].
    apply (Permutation_in _ (sorted_perm _)). now apply dict_has_keys.
Qed.

(** X4. [set_db] and [set_collection] accept a non-empty string and nothing
    else: any other value, [None] and the empty string included, is refused
    with TypeError, so a coordinate once set cannot be unset through them.
    An accepted value replaces that one coordinate only. *)
Theorem string_setters_accept_nonempty_strings nm v :
  ((exists nm', set_db nm v = Ok nm')
   <-> exists s, v = VStr s /\ s <> "")
  /\ ((exists nm', set_collection nm v = Ok nm')
      <-> exists s, v = VStr s /\ s <> "")
  /\ (forall nm', set_db nm v = Ok nm' ->
                  nm' = mk (fields nm) (client nm) v (collection nm))
  /\ (forall nm', set_collection nm v = Ok nm' ->
                  nm' = mk (fields nm) (client nm) (database nm) v)
  /\ (forall e, set_db nm v = Raise e ->
                e = TypeError "Exected database string")
  /\ (forall e, set_collection nm v = Raise e ->
                e = TypeError "Expected collection string").
Proof.
  assert (Hok : truthy v = true /\ isinstance_str v = true
                <-> exists s, v = VStr s /\ s <> "").
  { split.
    - intros [Ht Hs]. destruct v; try discriminate. exists s.
      split; [reflexivity|]. simpl in Ht. apply negb_true_iff in Ht.
      now apply String.eqb_neq.
    - intros (s & -> & Hs). simpl. split; [|reflexivity].
      apply negb_true_iff. now apply String.eqb_neq. }
  unfold set_db, set_collection.
  destruct (truthy v) eqn:Et, (isinstance_str v) eqn:Es; simpl;
    repeat split;
    try (intros [nm' H]; discriminate);
    try (intros _; apply Hok; now split);
    try (intros _; eexists; reflexivity);
    try (intros H; apply Hok in H; destruct H; discriminate);
    try (intros nm' [= <-]; reflexivity);
    try (intros e [= <-]; reflexivity);
    try discriminate.
Qed.

Variable valid_client : pyval -> bool.
Hypothesis valid_client_truthy :
  forall c, valid_client c = true -> truthy c = true.

(** X5. Binding then resolving: once [set_client], [set_db] and
    [set_collection] have each accepted a value, [get_collection] returns
    the handle [client[database][collection]] made of exactly these three
    values. *)
Theorem setters_then_get_collection nm c db col nm1 nm2 nm3 :
  set_client valid_client nm c = Ok nm1 ->
  set_db nm1 db = Ok nm2 ->
  set_collection nm2 col = Ok nm3 ->
  get_collection nm3 = Ok (VGetItem (VGetItem c db) col)
  /\ fields nm3 = fields nm.
Proof.
  unfold set_client, set_db, set_collection, get_collection.
  destruct (valid_client c) eqn:Ec; simpl; [|discriminate].
  intros [= <-]. simpl.
  destruct (truthy db) eqn:Ed, (isinstance_str db); simpl; try discriminate.
  intros [= <-]. simpl.
  destruct (truthy col) eqn:Eo, (isinstance_str col); simpl; try discriminate.
  intros [= <-]. simpl.
  now rewrite (valid_client_truthy c Ec), Ed, Eo.
Qed.

End RegistryMore.

(** * Further properties of type declaration *)

Section DeclarationMore.

Import Nanomongo DocumentMeta.

Variable valid_client : pyval -> bool.
Variable ObjectId_validator : pyval -> string -> string + pyval.
Variable str_lower : string -> string.

(** The outcome of a declaration is decided by the three setters alone. *)
Lemma init_result name inherited dct kwargs w :
  fst (__init__ valid_client ObjectId_validator str_lower name inherited dct
                kwargs w)
  = let nm0 := mk (next w) VNone VNone VNone in
    match dict_get "nanomongo" dct with
    | Some _ => Raise (AttributeError "fields")
    | None =>
    rbind (match dict_get "client" kwargs with
           | Some c => set_client valid_client nm0 c
           | None => Ok nm0
           end)
      (fun nm1 =>
         rbind (match dict_get "db" kwargs with
                | Some db => set_db nm1 db
                | None => Ok nm1
                end)
           (fun nm2 =>
              rbind (match dict_get "collection" kwargs with
                     | Some col => set_collection nm2 col
                     | None => set_collection nm2 (VStr (str_lower name))
                     end)
                (fun nm3 => Ok (mkClass name (strip_fields dct) nm3))))
    end.
Proof.
  unfold __init__. cbv zeta.
  destruct (dict_get "nanomongo" dct) as [bound|]; [reflexivity|].
  assert (Hfd : exists d,
    (match inherited with
     | Some parent =>
         parent_fields <- read (fields parent) ;;
         from_dicts [ArgDict (as_attrs parent_fields); ArgDict dct]
     | None => from_dicts [ArgDict dct]
     end) w
    = (Ok (mk (next w) VNone VNone VNone),
       mkWorld (S (next w)) (upd (cells w) (next w) d) (trace w))).
  { destruct inherited; eexists; reflexivity. }
  destruct Hfd as [d Hfd]. rewrite (bind_step _ _ _ _ _ Hfd).
  unfold has_field. unfold bind at 1 2. unfold read at 1. unfold ret at 1.
  cbn [fields next cells trace]. unfold upd at 1. rewrite Nat.eqb_refl.
  set (nm0 := mk (next w) VNone VNone VNone).
  match goal with
  | |- context [bind ?m _ ?w0] =>
      assert (Hinj : exists w1, m w0 = (Ok tt, w1))
  end.
  { destruct (dict_has "_id" d); eexists; reflexivity. }
  destruct Hinj as [w1 Hinj]. rewrite (bind_step _ _ _ _ _ Hinj).
  unfold bind, lift, ret, rbind.
  destruct (dict_get "client" kwargs) as [c|];
    [destruct (set_client valid_client nm0 c) as [nm1|e]; [|reflexivity]|];
    (destruct (dict_get "db" kwargs) as [db|];
     [match goal with
      | |- context [set_db ?n db] =>
          destruct (set_db n db) as [nm2|e]; [|reflexivity]
      end|]);
    (destruct (dict_get "collection" kwargs) as [col|];
     match goal with
     | |- context [set_collection ?n ?v] =>
         destruct (set_collection n v) as [nm3|e]; reflexivity
     end).
Qed.


(** X7. The storage coordinates of a declared type come from its own
    options only: the client and the database are those given and [None]
    otherwise, the collection is the one given and otherwise what
    [str.lower] makes of the type's name.  Nothing is taken over from the
    parent: a subtype declared without [client] cannot resolve its
    collection, whatever the parent was bound to. *)
Theorem coordinates_from_own_options name inherited dct kwargs w cls w' :
  __init__ valid_client ObjectId_validator str_lower name inherited dct kwargs w
  = (Ok cls, w') ->
  cls_name cls = name
  /\ client (nanomongo cls)
     = match dict_get "client" kwargs with Some c => c | None => VNone end
  /\ database (nanomongo cls)
     = match dict_get "db" kwargs with Some db => db | None => VNone end
  /\ collection (nanomongo cls)
     = match dict_get "collection" kwargs with
       | Some col => col
       | None => VStr (str_lower name)
       end
  /\ coords_ok valid_client (nanomongo cls)
  /\ (dict_get "client" kwargs = None ->
      BaseDocument.get_collection cls
      = Raise (ConfigurationError "Mongo client not set")).
Proof.
  intros H. apply (f_equal fst) in H. rewrite init_result in H.
  cbv zeta in H. simpl fst in H.
  destruct (dict_get "nanomongo" dct); [discriminate|].
  unfold rbind in H.
  set (nm0 := mk (next w) VNone VNone VNone) in H.
  assert (H0 : coords_ok valid_client nm0) by (unfold coords_ok; simpl; tauto).
  destruct (match dict_get "client" kwargs with
            | Some c => set_client valid_client nm0 c
            | None => Ok nm0
            end) as [nm1|] eqn:E1; [|discriminate].
  assert (H1 : coords_ok valid_client nm1
               /\ client nm1 = match dict_get "client" kwargs with
                               | Some c => c | None => VNone end
               /\ database nm1 = VNone).
  { destruct (dict_get "client" kwargs) as [c|].
    - split; [now apply (set_client_coords_ok valid_client nm0 c)|].
      unfold set_client in E1. destruct (negb (valid_client c));
        [discriminate|]. now injection E1 as <-.
    - injection E1 as <-. auto. }
  destruct H1 as (H1 & Hc1 & Hd1).
  destruct (match dict_get "db" kwargs with
            | Some db => set_db nm1 db
            | None => Ok nm1
            end) as [nm2|] eqn:E2; [|discriminate].
  assert (H2 : coords_ok valid_client nm2
               /\ client nm2 = client nm1
               /\ database nm2 = match dict_get "db" kwargs with
                                 | Some db => db | None => VNone end).
  { destruct (dict_get "db" kwargs) as [db|].
    - split; [now apply (set_db_coords_ok valid_client nm1 db)|].
      unfold set_db in E2. destruct (_ || _); [discriminate|].
      now injection E2 as <-.
    - injection E2 as <-. auto. }
  destruct H2 as (H2 & Hc2 & Hd2).
  destruct (match dict_get "collection" kwargs with
            | Some col => set_collection nm2 col
            | None => set_collection nm2 (VStr (str_lower name))
            end) as [nm3|] eqn:E3; [|discriminate].
  assert (H3 : coords_ok valid_client nm3
               /\ client nm3 = client nm2 /\ database nm3 = database nm2
               /\ collection nm3 = match dict_get "collection" kwargs with
                                   | Some col => col
                                   | None => VStr (str_lower name)
                                   end).
  { destruct (dict_get "collection" kwargs) as [col|].
    - split; [now apply (set_collection_coords_ok valid_client nm2 col)|].
      unfold set_collection in E3. destruct (_ || _); [discriminate|].
      now injection E3 as <-.
    - split;
        [now apply (set_collection_coords_ok valid_client nm2
                                             (VStr (str_lower name)))|].
      unfold set_collection in E3. destruct (_ || _); [discriminate|].
      now injection E3 as <-. }
  destruct H3 as (H3 & Hc3 & Hd3 & Ho3).
  injection H as <-. simpl. repeat split; try congruence.
  - apply H3.
  - apply H3.
  - apply H3.
  - intros Hnone. unfold BaseDocument.get_collection, get_collection. simpl.
    rewrite Hc3, Hc2, Hc1, Hnone. reflexivity.
Qed.

Lemma dict_get_filter {A} (p : A -> bool) (d : dict A) k :
  dict_wf d ->
  dict_get k (filter (fun kv => p (snd kv)) d)
  = match dict_get k d with
    | Some a => if p a then Some a else None
    | None => None
    end.
Proof.
  unfold dict_wf. induction d as [|[k0 a] r IH]; simpl; intros Hwf;
    [reflexivity|].
  inversion Hwf as [|? ? Hnotin Hwf']; subst.
  destruct (String.eqb k k0) eqn:E.
  - apply String.eqb_eq in E. subst k0. destruct (p a); simpl.
    + now rewrite String.eqb_refl.
    + rewrite (IH Hwf'). apply dict_get_none_keys in Hnotin.
      now rewrite Hnotin.
  - destruct (p a); simpl; [rewrite E|]; now apply IH.
Qed.

(** X8. After a declaration the declared Fields are gone from the type's
    own namespace and are found in its schema instead, while every other
    attribute of the namespace stays where it was, with its value. *)
Theorem fields_move_to_schema name inherited dct kwargs w cls w' :
  __init__ valid_client ObjectId_validator str_lower name inherited dct kwargs w
  = (Ok cls, w') ->
  dict_wf dct ->
  forall k,
    match dict_get k dct with
    | Some (AField f) =>
        dict_get k (cls_dict cls) = None
        /\ dict_get k (schema_of cls w') = Some f
    | Some (AOther v) => dict_get k (cls_dict cls) = Some (AOther v)
    | None => dict_get k (cls_dict cls) = None
    end.
Proof.
  intros H Hwf k.
  assert (Hd : cls_dict cls = strip_fields dct).
  { apply (f_equal fst) in H. rewrite init_result in H. cbv zeta in H.
    simpl fst in H. destruct (dict_get "nanomongo" dct); [discriminate|].
    unfold rbind in H.
    repeat match type of H with
           | match ?x with Ok _ => _ | Raise _ => _ end = _ =>
               destruct x; [|discriminate]
           end.
    now injection H as <-. }
  apply init_success in H. destruct H as (Hl & _ & _ & Hc & _).
  rewrite Hd. unfold strip_fields.
  rewrite (dict_get_filter
             (fun a => match a with AField _ => false | AOther _ => true end))
    by assumption.
  destruct (dict_get k dct) as [[f|v]|] eqn:Ek; try reflexivity.
  split; [reflexivity|]. unfold schema_of. rewrite Hl, Hc.
  match goal with |- context [dict_has "_id" ?m] => set (merged := m) end.
  assert (Hm : dict_get k merged = Some f).
  { subst merged. rewrite collect_items_get by assumption. now rewrite Ek. }
  destruct (dict_has "_id" merged) eqn:Hid; [assumption|].
  rewrite dict_get_set. destruct (String.eqb k "_id") eqn:E; [|assumption].
  apply String.eqb_eq in E. subst k. unfold dict_has in Hid.
  now rewrite Hm in Hid.
Qed.

End DeclarationMore.

Section BasesMore.

Import DocumentMeta.

Variable DotNotationMixin : pyclass.

(** X9. The bases that [__new__] hands on for a declaration with a plain
    tuple of bases never name the same class twice, with or without the
    dot-notation mixin; and [object] is not among them unless it is given
    as the mixin. *)
Theorem new_bases_without_duplicates bases kwargs :
  let new_bases := items (__new__ DotNotationMixin (Tuple bases) kwargs) in
  NoDup (map ident new_bases)
  /\ (DotNotationMixin <> PyObject -> ~ In PyObject new_bases).
Proof.
  intros new_bases. subst new_bases. unfold __new__. simpl.
  assert (Hobj : ~ In PyObject (unique_bases [] (__get_bases bases))).
  { intros Hin. apply unique_bases_in in Hin. destruct Hin as [Hin _].
    apply get_bases_among in Hin.
    assert (Hno : forall l, among PyObject l -> False) by (induction 1; auto).
    now apply (Hno bases). }
  destruct (truthy _ && negb _) eqn:E; simpl.
  - apply andb_true_iff in E. destruct E as [_ E].
    apply negb_true_iff in E. split.
    + constructor; [|apply unique_bases_nodup].
      intros Hin. apply in_map_iff in Hin. destruct Hin as (x & Hx & Hin).
      assert (class_in DotNotationMixin (unique_bases [] (__get_bases bases))
              = true); [|congruence].
      apply class_in_spec. eauto.
    + intros Hne [H|H]; [congruence | now apply Hobj].
  - split; [apply unique_bases_nodup | intros _; exact Hobj].
Qed.

End BasesMore.

(** * Further properties of documents *)

Section DocumentMore.

Import Nanomongo BaseDocument.

Variable cls : doc_class.

Lemma all_declared_update schema (base src : dict pyval) :
  all_declared schema base = true ->
  all_declared schema src = true ->
  all_declared schema (dict_update base src) = true.
Proof.
  unfold dict_update. revert base.
  induction src as [|[k v] r IH]; simpl; intros base Hb Hs; [assumption|].
  apply andb_true_iff in Hs. destruct Hs as [Hk Hr].
  apply IH; [|exact Hr]. now apply all_declared_set.
Qed.

Lemma all_declared_defaults schema self :
  all_declared schema self = true ->
  all_declared schema (set_defaults schema self) = true.
Proof.
  unfold set_defaults.
  assert (G : forall fs base,
    (forall item, In item fs -> dict_has (fst item) schema = true) ->
    all_declared schema base = true ->
    all_declared schema
      (fold_left
         (fun self item =>
            match Field.default_value (snd item) with
            | Some val => dict_set (fst item) (materialize val) self
            | None => self
            end) fs base) = true).
  { induction fs as [|item r IH]; simpl; intros base Hin Hb; [assumption|].
    apply IH; [intros i Hi; apply Hin; now right|].
    destruct (Field.default_value (snd item)); [|assumption].
    apply all_declared_set; [assumption|]. apply Hin. now left. }
  apply G. intros [k f] Hin. apply dict_has_keys. simpl.
  change k with (fst (k, f)). now apply in_map.
Qed.

Lemma supplied_ok_declared schema (kw : dict pyval) :
  forallb (supplied_ok schema) kw = true -> all_declared schema kw = true.
Proof.
  unfold all_declared. induction kw as [|[k v] r IH]; simpl; [reflexivity|].
  intros H. apply andb_true_iff in H. destruct H as [Hk Hr].
  rewrite (IH Hr), andb_true_r. unfold supplied_ok, dict_has in *.
  simpl in Hk. now destruct (dict_get k schema).
Qed.

(** Every key of the positional mapping is a key of the merged keyword
    arguments. *)
Lemma merge_args_covers d rest kwargs kw k :
  merge_args (VDict d :: rest) kwargs = Ok kw ->
  dict_has k kw = false -> dict_has k d = false.
Proof.
  simpl. intros [= <-]. unfold dict_has. rewrite merge_fold_get.
  destruct (dict_get k kwargs); [discriminate|].
  now destruct (dict_get k d).
Qed.

Lemma all_declared_in schema (d : dict pyval) :
  (forall k, dict_has k d = true -> dict_has k schema = true) ->
  all_declared schema d = true.
Proof.
  unfold all_declared. intros H. apply forallb_forall. intros [k v] Hin.
  simpl. apply H. apply dict_has_keys. change k with (fst (k, v)).
  now apply in_map.
Qed.

Lemma dict_init_declared schema args kwargs kw self :
  merge_args args kwargs = Ok kw ->
  dict_init args kw = Ok self ->
  all_declared schema kw = true ->
  all_declared schema self = true.
Proof.
  intros Hm Hi Hkw. unfold dict_init in Hi.
  assert (Hin : forall k, dict_has k kw = true -> dict_has k schema = true).
  { intros k Hk. apply dict_has_keys in Hk. apply in_map_iff in Hk.
    destruct Hk as ([k' v] & <- & Hin). unfold all_declared in Hkw.
    rewrite forallb_forall in Hkw. now apply (Hkw _ Hin). }
  destruct args as [|a [|b rest]].
  - injection Hi as <-. now apply all_declared_update.
  - destruct a; try discriminate. injection Hi as <-.
    apply all_declared_update; [|assumption].
    apply all_declared_update; [reflexivity|].
    apply all_declared_in. intros k Hk. apply Hin.
    destruct (dict_has k kw) eqn:E; [reflexivity|].
    rewrite (merge_args_covers _ _ _ _ _ Hm E) in Hk. discriminate.
  - destruct a; discriminate.
Qed.

Lemma dict_init_get args kwargs kw self k :
  merge_args args kwargs = Ok kw ->
  dict_init args kw = Ok self ->
  dict_has k kw = false -> dict_get k self = None.
Proof.
  intros Hm Hi Hk. unfold dict_init in Hi.
  destruct args as [|a [|b rest]].
  - injection Hi as <-. now rewrite dict_update_get_notin.
  - destruct a; try discriminate. injection Hi as <-.
    rewrite dict_update_get_notin by assumption.
    now rewrite dict_update_get_notin
      by (now apply (merge_args_covers _ _ _ _ _ Hm)).
  - destruct a; discriminate.
Qed.

(** X10. A construction succeeds exactly when it is given no positional
    argument or a single dict, and every item of the merged keyword
    arguments has a declared name and a value its validator accepts;
    whether required fields are supplied plays no part.  When it fails, it
    fails with TypeError, ExtraFieldError or a validator's ValidationError,
    never with the KeyError of an unguarded lookup. *)
Theorem construction_succeeds_iff args kwargs w :
  ((exists doc w', BaseDocument.__init__ cls args kwargs w = (Ok doc, w'))
   <-> exists kw,
         (args = [] \/ exists d, args = [VDict d])
         /\ merge_args args kwargs = Ok kw
         /\ forallb (supplied_ok (schema_of cls w)) kw = true)
  /\ (forall e w',
        BaseDocument.__init__ cls args kwargs w = (Raise e, w') ->
        (exists msg, e = TypeError msg)
        \/ (exists k v, e = ExtraFieldError k v (cls_name cls))
        \/ (exists detail, e = ValidationError (Rejected detail))).
Proof.
  split; [split|].
  - intros (doc & w' & H). apply init_ok_inv in H.
    destruct H as (kw & self & Hm & Hi & Hall & _). exists kw.
    repeat split; try assumption.
    destruct args as [|a [|b rest]]; [now left| |].
    + right. destruct a; try discriminate. eauto.
    + destruct a; discriminate.
  - intros (kw & Hargs & Hm & Hall).
    assert (Hlen : length args <= 1).
    { destruct Hargs as [->|[d ->]]; simpl; lia. }
    destruct (dict_init_ok _ _ _ Hm Hlen) as [self Hi].
    rewrite init_unfold, Hm, Hi, supplied_loop_ok by assumption. eauto.
  - intros e w'. rewrite init_unfold.
    destruct (merge_args args kwargs) as [kw|e0] eqn:Em.
    + destruct (dict_init args kw) as [self|e1] eqn:Ei.
      * destruct (supplied_loop_cases cls kw
                    (set_defaults (schema_of cls w) self) w)
          as [[_ Hrun]|(pre & k & v & post & e2 & evs & -> & Hpre & Hx & _ & _)].
        -- rewrite Hrun. discriminate.
        -- rewrite supplied_loop_stops by assumption.
           unfold supplied_ok, accepts in Hx. simpl in Hx.
           destruct (dict_get k (schema_of cls w)) as [f|].
           ++ destruct (Field.validator f v k); [|discriminate].
              intros [= <- _]. eauto.
           ++ intros [= <- _]. eauto.
      * intros [= <- _]. left. unfold dict_init in Ei.
        destruct args as [|a [|b rest]]; [discriminate| |].
        -- destruct a; try discriminate; injection Ei as <-; eauto.
        -- destruct a; try discriminate; injection Ei as <-; eauto.
    + intros [= <- _]. left. unfold merge_args in Em.
      destruct args as [|a rest]; [discriminate|].
      destruct a; try discriminate; injection Em as <-; eauto.
Qed.

(** X11. A document that was constructed has only declared keys: the
    constructor leaves the schema untouched and the first loop of
    [validate_all] finds nothing to object to in the new document. *)
Theorem constructed_document_has_declared_keys args kwargs w doc w' :
  BaseDocument.__init__ cls args kwargs w = (Ok doc, w') ->
  schema_of cls w' = schema_of cls w
  /\ all_declared (schema_of cls w') doc = true
  /\ for_each (check_declared cls) doc tt w' = (Ok tt, w').
Proof.
  intros H. apply init_ok_inv in H.
  destruct H as (kw & self & Hm & Hi & Hall & -> & ->).
  assert (Hs : schema_of cls (traced w (validations id kw)) = schema_of cls w)
    by reflexivity.
  assert (Hd : all_declared (schema_of cls w)
                 (dict_update (set_defaults (schema_of cls w) self) kw) = true).
  { pose proof (supplied_ok_declared _ _ Hall) as Hkw.
    apply all_declared_update; [|assumption].
    apply all_declared_defaults.
    now apply (dict_init_declared _ args kwargs kw). }
  split; [exact Hs | split; [now rewrite Hs|]].
  apply declared_loop_ok. now rewrite Hs.
Qed.

(** X12. The constructor stores every value exactly as it was supplied by
    keyword: what the field's validator returns for it is discarded, so a
    validator that converts its input has no effect on the stored value. *)
Theorem supplied_values_stored_as_given args kwargs w doc w' k v :
  BaseDocument.__init__ cls args kwargs w = (Ok doc, w') ->
  dict_wf kwargs ->
  dict_get k kwargs = Some v ->
  dict_get k doc = Some v
  /\ exists f, dict_get k (schema_of cls w) = Some f
               /\ exists v', Field.validator f v k = inr v'.
Proof.
  intros H Hwf Hk. apply init_ok_inv in H.
  destruct H as (kw & self & Hm & _ & Hall & -> & _).
  pose proof (merge_args_get _ _ _ _ _ Hm Hk) as Hkw. split.
  - rewrite dict_update_get by (now apply (merge_args_wf args kwargs)).
    now rewrite Hkw.
  - apply dict_get_in in Hkw. rewrite forallb_forall in Hall.
    apply Hall in Hkw. unfold supplied_ok, accepts in Hkw. simpl in Hkw.
    destruct (dict_get k (schema_of cls w)) as [f|]; [|discriminate].
    exists f. split; [reflexivity|].
    destruct (Field.validator f v k) as [|v']; [discriminate | eauto].
Qed.

(** X13. A construction without any argument always succeeds and calls no
    validator: the new document holds, for each field that declares a
    default, that default, or the result of calling it when it is
    callable, and nothing else, also when the schema has required fields
    without a default. *)
Theorem construction_without_arguments w :
  dict_wf (schema_of cls w) ->
  exists doc,
    BaseDocument.__init__ cls [] [] w = (Ok doc, w)
    /\ forall k,
         dict_get k doc
         = match dict_get k (schema_of cls w) with
           | Some f =>
               match Field.default_value f with
               | Some (VCallable provider) => Some (provider tt)
               | Some val => Some val
               | None => None
               end
           | None => None
           end.
Proof.
  intros Hwf. exists (set_defaults (schema_of cls w) []).
  split; [reflexivity|].
  intros k. rewrite set_defaults_get by assumption.
  destruct (dict_get k (schema_of cls w)) as [f|]; [|reflexivity].
  destruct (Field.default_value f) as [val|]; [|reflexivity].
  now destruct val.
Qed.

(** X14. Construction followed by full validation: a document that was
    constructed passes [validate_all] (with the hook [BaseDocument] defines)
    as soon as every required field is present in it and every declared
    default passes its own validator; the validators are then called once
    for each field the document has, in the order of the schema. *)
Theorem constructed_document_validates args kwargs w doc w' :
  BaseDocument.__init__ cls args kwargs w = (Ok doc, w') ->
  dict_wf (schema_of cls w) ->
  dict_wf kwargs ->
  (forall k f, dict_get k (schema_of cls w) = Some f ->
               Field.required f = true -> dict_has k doc = true) ->
  (forall k f val, dict_get k (schema_of cls w) = Some f ->
                   Field.default_value f = Some val ->
                   accepts f (materialize val) k = true) ->
  validate_all BaseDocument.validate cls doc w'
  = (Ok VNone, traced w' (checked doc (schema_of cls w))).
Proof.
  intros H Hwf Hkwf Hreq Hdef.
  destruct (constructed_document_has_declared_keys _ _ _ _ _ H)
    as (Hs & Hd & _).
  apply init_ok_inv in H.
  destruct H as (kw & self & Hm & Hi & Hall & Hdoc & Hw').
  pose proof (merge_args_wf _ _ _ Hm Hkwf) as Hkw.
  rewrite validate_all_passes; [now rewrite Hs | exact Hd |].
  rewrite Hs. apply forallb_forall. intros [k f] Hin.
  apply (in_dict_get _ _ _ Hwf) in Hin. unfold field_ok. simpl.
  specialize (Hreq k f Hin). unfold dict_has in Hreq.
  rewrite Hdoc in *. rewrite dict_update_get in * by assumption.
  destruct (dict_get k kw) as [v|] eqn:Ek.
  - apply dict_get_in in Ek. rewrite forallb_forall in Hall.
    apply Hall in Ek. unfold supplied_ok in Ek. simpl in Ek.
    now rewrite Hin in Ek.
  - rewrite set_defaults_get in * by assumption. rewrite Hin in *.
    destruct (Field.default_value f) as [val|] eqn:Ed.
    + now apply (Hdef k f val).
    + rewrite (dict_init_get args kwargs kw self k Hm Hi) in *
        by (unfold dict_has; now rewrite Ek).
      destruct (Field.required f); [|reflexivity].
      now specialize (Hreq eq_refl).
Qed.

End DocumentMore.

(** * Further properties of validation, saving and queries *)

Section PersistenceMore.

Import Nanomongo BaseDocument.

Variable cls : doc_class.
Variable collection_reply : store_call -> result pyval.

(** X15. With the hook [BaseDocument] defines, [validate_all] returns
    [None] exactly when every key of the instance is declared and every
    declared field is present with a value its validator accepts, or absent
    and not required.  Otherwise it raises ValidationError and nothing
    else.  Either way it only calls validators: the store is as it was and
    no call on the collection is issued. *)
Theorem validate_all_passes_iff self w :
  (fst (validate_all BaseDocument.validate cls self w) = Ok VNone
   <-> all_declared (schema_of cls w) self
       && forallb (field_ok self) (schema_of cls w) = true)
  /\ (forall e, fst (validate_all BaseDocument.validate cls self w) = Raise e
                -> exists m, e = ValidationError m)
  /\ (exists evs,
        snd (validate_all BaseDocument.validate cls self w) = traced w evs
        /\ calls evs = []).
Proof.
  destruct (all_declared (schema_of cls w) self
            && forallb (field_ok self) (schema_of cls w)) eqn:E.
  - apply andb_true_iff in E. destruct E as [E1 E2].
    rewrite validate_all_passes by assumption.
    unfold BaseDocument.validate, ret. simpl. repeat split; try discriminate.
    exists (checked self (schema_of cls w)).
    split; [reflexivity | apply calls_checked].
  - destruct (validate_all_fails cls BaseDocument.validate self w E)
      as (m & evs & Hrun & Hc).
    rewrite Hrun. simpl. repeat split; try discriminate.
    + intros e [= <-]. eauto.
    + eauto.
Qed.

(** X16. [save] validates before it does anything else: for an instance
    that [validate_all] rejects it raises that ValidationError and issues
    no call on the collection, also when the storage coordinates are not
    set (the validation error comes before the ConfigurationError). *)
Theorem save_of_invalid_document_issues_nothing self kwargs w :
  all_declared (schema_of cls w) self
  && forallb (field_ok self) (schema_of cls w) = false ->
  exists m evs,
    save BaseDocument.validate collection_reply cls self kwargs w
    = (Raise (ValidationError m), traced w evs)
    /\ calls evs = []
    /\ fst (validate_all BaseDocument.validate cls self w)
       = Raise (ValidationError m).
Proof.
  intros E.
  destruct (validate_all_fails cls BaseDocument.validate self w E)
    as (m & evs & Hrun & Hc).
  exists m, evs. rewrite save_unfold, Hrun. auto.
Qed.

(** X17. [save] of a valid instance of a type whose storage coordinates
    are incomplete fails with the ConfigurationError of [get_collection],
    after the validators have run, and issues no call on the collection. *)
Theorem save_without_coordinates_issues_nothing self kwargs w e :
  all_declared (schema_of cls w) self = true ->
  forallb (field_ok self) (schema_of cls w) = true ->
  BaseDocument.get_collection cls = Raise e ->
  save BaseDocument.validate collection_reply cls self kwargs w
  = (Raise e, traced w (checked self (schema_of cls w)))
  /\ calls (checked self (schema_of cls w)) = []
  /\ exists msg, e = ConfigurationError msg.
Proof.
  intros Hd Hf He. rewrite save_unfold, validate_all_passes by assumption.
  unfold BaseDocument.validate, ret. rewrite He.
  repeat split; [apply calls_checked|].
  unfold BaseDocument.get_collection, Nanomongo.get_collection in He.
  destruct (negb (truthy (client (nanomongo cls))));
    [injection He as <-; eauto|].
  destruct (negb (truthy (database (nanomongo cls))));
    [injection He as <-; eauto|].
  destruct (negb (truthy (collection (nanomongo cls))));
    [injection He as <-; eauto | discriminate].
Qed.

Variable cls_object : pyval.
Variable collection_find : pyval -> list pyval -> dict pyval -> result pyval.
Variable collection_find_one :
  pyval -> list pyval -> dict pyval -> result pyval.

(** X18. [find] and [find_one] hand the query to the collection with the
    positional arguments as they are and with keyword arguments that always
    carry [as_class]: the caller's value when the caller gave one, the
    class itself otherwise; every other keyword argument is passed on
    unchanged.  When the collection cannot be resolved they raise that
    error and the collection is not queried. *)
Theorem queries_forward_with_as_class args kwargs :
  exists forwarded,
    dict_get "as_class" forwarded
    = Some (match dict_get "as_class" kwargs with
            | Some given => given
            | None => cls_object
            end)
    /\ (forall k, k <> "as_class" ->
                  dict_get k forwarded = dict_get k kwargs)
    /\ (dict_wf kwargs -> dict_wf forwarded)
    /\ match BaseDocument.get_collection cls with
       | Ok coll =>
           find cls_object collection_find cls args kwargs
           = collection_find coll args forwarded
           /\ find_one cls_object collection_find_one cls args kwargs
              = collection_find_one coll args forwarded
       | Raise e =>
           find cls_object collection_find cls args kwargs = Raise e
           /\ find_one cls_object collection_find_one cls args kwargs
              = Raise e
       end.
Proof.
  exists (if negb (dict_has "as_class" kwargs)
          then dict_set "as_class" cls_object kwargs
          else kwargs).
  unfold find, find_one, rbind, dict_has.
  destruct (dict_get "as_class" kwargs) as [given|] eqn:E; simpl.
  - repeat split; auto.
    now destruct (BaseDocument.get_collection cls).
  - repeat split.
    + apply dict_get_set_eq.
    + intros k Hk. now apply dict_get_set_ne.
    + apply dict_wf_set.
    + now destruct (BaseDocument.get_collection cls).
Qed.

Variable super_dir : list string.

(** X19. [__dir__] lists, in ascending order, the names the parent class
    lists together with the names of the declared fields: every declared
    field is in the listing, nothing is dropped, and the world is left as
    it was. *)
Theorem dir_lists_declared_fields w :
  exists names,
    BaseDocument.__dir__ super_dir cls w = (Ok names, w)
    /\ Sorted str_le names
    /\ Permutation (super_dir ++ keys (schema_of cls w)) names
    /\ (forall k, dict_has k (schema_of cls w) = true -> In k names)
    /\ (forall a, In a super_dir -> In a names).
Proof.
  exists (sorted (super_dir ++ sorted (keys (schema_of cls w)))).
  assert (Hp : Permutation (super_dir ++ keys (schema_of cls w))
                 (sorted (super_dir ++ sorted (keys (schema_of cls w))))).
  { rewrite <- sorted_perm. apply Permutation_app_head, sorted_perm. }
  repeat split.
  - apply sorted_Sorted.
  - exact Hp.
  - intros k Hk. apply (Permutation_in _ Hp), in_or_app. right.
    now apply dict_has_keys.
  - intros a Ha. apply (Permutation_in _ Hp), in_or_app. now left.
Qed.

End PersistenceMore.

(** ** The worked declaration, continued *)

Section WorkedMore.

Import Example.

Example declare_Num :
  declare "Num" (Some (nanomongo BaseDocument_cls)) Num_dct
          [("collection", VStr "numbers")] w3
  = (Ok Num_cls, w4).
Proof. reflexivity. Qed.

Example declare_Tagged :
  declare "Tagged" (Some (nanomongo BaseDocument_cls)) Tagged_dct [] w4
  = (Ok Tagged_cls, w5).
Proof. reflexivity. Qed.

(** A namespace that binds the name [nanomongo] itself. *)
Example declare_with_nanomongo_in_namespace :
  fst (declare "Bad" (Some (nanomongo BaseDocument_cls))
               [("nanomongo", Nanomongo.AField foo)] [] w4)
  = Raise (AttributeError "fields").
Proof. reflexivity. Qed.

Lemma from_dicts_rejects_bad_input_witness :
  Nanomongo.from_dicts
    [Nanomongo.ArgDict Doc_dct; Nanomongo.ArgOther (VInt 3)] w1
  = (Raise (TypeError "expected input of dictionaries"), w1).
Proof.
  apply (from_dicts_rejects_bad_input
           [Nanomongo.ArgDict Doc_dct; Nanomongo.ArgOther (VInt 3)]
           (VInt 3) w1).
  simpl. auto.
Defined.

Lemma from_dicts_keeps_only_fields_witness :
  exists nm w',
    Nanomongo.from_dicts (map Nanomongo.ArgDict [Doc_dct; Sub_dct]) w1
    = (Ok nm, w')
    /\ keys (cells w' (Nanomongo.fields nm)) = ["foo"; "bar"; "moo"]
    /\ dict_get "foo" (cells w' (Nanomongo.fields nm))
       = Some foo_with_default.
Proof.
  destruct (from_dicts_keeps_only_fields [Doc_dct; Sub_dct] w1)
    as (nm & w' & Hrun & Hnm & _ & _ & _ & _ & _ & Hlast).
  - discriminate.
  - exists nm, w'. split; [exact Hrun|]. split.
    + injection Hrun as <- <-. reflexivity.
    + apply (Hlast [Doc_dct] Sub_dct "foo" foo_with_default);
        [reflexivity | apply dict_wfb_spec; reflexivity | reflexivity].
Defined.

Lemma setters_then_get_collection_witness :
  Nanomongo.get_collection (nanomongo Doc_cls) = Ok Doc_collection.
Proof.
  apply (setters_then_get_collection valid_client valid_client_truthy
           (Nanomongo.mk 1 VNone VNone VNone)
           (VObject 7) (VStr "nanotestdb") (VStr "doc")
           (Nanomongo.mk 1 (VObject 7) VNone VNone)
           (Nanomongo.mk 1 (VObject 7) (VStr "nanotestdb") VNone)
           (nanomongo Doc_cls) eq_refl eq_refl eq_refl).
Defined.

Lemma coordinates_from_own_options_witness :
  Nanomongo.client (nanomongo Sub_cls) = VNone
  /\ Nanomongo.collection (nanomongo Sub_cls) = VStr "sub"
  /\ Nanomongo.client (nanomongo Doc_cls) = VObject 7
  /\ BaseDocument.get_collection Sub_cls
     = Raise (ConfigurationError "Mongo client not set").
Proof.
  destruct (coordinates_from_own_options valid_client ObjectId_validator lower
              "Sub" (Some (nanomongo Doc_cls)) Sub_dct [] w2 Sub_cls w3
              eq_refl) as (_ & Hc & _ & Ho & _ & Hget).
  split; [exact Hc | split; [exact Ho | split; [reflexivity|]]].
  exact (Hget eq_refl).
Defined.

Lemma fields_move_to_schema_witness :
  dict_get "n" (cls_dict Num_cls) = None
  /\ dict_get "n" (schema_of Num_cls w4) = Some num
  /\ dict_get "limit" (cls_dict Num_cls)
     = Some (Nanomongo.AOther (VInt 10)).
Proof.
  pose proof (fields_move_to_schema valid_client ObjectId_validator lower
                "Num" (Some (nanomongo BaseDocument_cls)) Num_dct
                [("collection", VStr "numbers")] w3 Num_cls w4
                eq_refl (dict_wfb_spec Num_dct eq_refl)) as H.
  split; [|split].
  - exact (proj1 (H "n")).
  - exact (proj2 (H "n")).
  - exact (H "limit").
Defined.

Lemma constructed_document_has_declared_keys_witness :
  all_declared (schema_of Doc_cls w2)
               [("foo", VStr "foo value"); ("bar", VInt 42)] = true.
Proof.
  destruct (constructed_document_has_declared_keys Doc_cls [VDict []]
              [("foo", VStr "foo value"); ("bar", VInt 42)] w2
              [("foo", VStr "foo value"); ("bar", VInt 42)]
              (traced w2 [EValidate "foo" (VStr "foo value");
                          EValidate "bar" (VInt 42)])
              eq_refl) as (_ & H & _).
  exact H.
Defined.

Lemma supplied_values_stored_as_given_witness :
  dict_get "n" [("n", VBool true)] = Some (VBool true)
  /\ Field.validator num (VBool true) "n" = inr (VInt 1).
Proof.
  destruct (supplied_values_stored_as_given Num_cls [] [("n", VBool true)]
              w4 [("n", VBool true)]
              (traced w4 [EValidate "n" (VBool true)]) "n" (VBool true)
              eq_refl (dict_wfb_spec [("n", VBool true)] eq_refl) eq_refl)
    as (Hstored & _).
  split; [exact Hstored | reflexivity].
Defined.

Lemma construction_without_arguments_witness :
  exists doc,
    BaseDocument.__init__ Tagged_cls [] [] w5 = (Ok doc, w5)
    /\ dict_get "tags" doc = Some (VList [])
    /\ dict_get "count" doc = Some (VInt 0)
    /\ dict_get "title" doc = None
    /\ Field.required foo = true.
Proof.
  destruct (construction_without_arguments Tagged_cls w5
              (dict_wfb_spec (schema_of Tagged_cls w5) eq_refl))
    as (doc & Hrun & Hget).
  exists doc. split; [exact Hrun|]. split; [|split; [|split]].
  - rewrite Hget. reflexivity.
  - rewrite Hget. reflexivity.
  - rewrite Hget. reflexivity.
  - reflexivity.
Defined.

Lemma constructed_document_validates_witness :
  fst (BaseDocument.validate_all BaseDocument.validate Doc_cls
         [("foo", VStr "x"); ("moo", VList [])]
         (traced w2 [EValidate "foo" (VStr "x");
                     EValidate "moo" (VList [])]))
  = Ok VNone.
Proof.
  rewrite (constructed_document_validates Doc_cls []
             [("foo", VStr "x"); ("moo", VList [])] w2
             [("foo", VStr "x"); ("moo", VList [])]
             (traced w2 [EValidate "foo" (VStr "x");
                         EValidate "moo" (VList [])])
             eq_refl
             (dict_wfb_spec (schema_of Doc_cls w2) eq_refl)
             (dict_wfb_spec [("foo", VStr "x"); ("moo", VList [])] eq_refl)).
  - reflexivity.
  - intros k f Hk Hreq.
    apply dict_get_in in Hk.
    destruct Hk as [H|[H|[H|[H|[]]]]]; injection H as <- <-;
      try reflexivity; discriminate.
  - intros k f val Hk Hdef.
    apply dict_get_in in Hk.
    destruct Hk as [H|[H|[H|[H|[]]]]]; injection H as <- <-; discriminate.
Defined.

Lemma save_of_invalid_document_issues_nothing_witness :
  exists evs,
    BaseDocument.save BaseDocument.validate reply Sub_cls
                      [("zzz", VInt 1)] atomic w3
    = (Raise (ValidationError (ExtraField "zzz" (VInt 1))), traced w3 evs)
    /\ calls evs = [].
Proof.
  destruct (save_of_invalid_document_issues_nothing Sub_cls reply
              [("zzz", VInt 1)] atomic w3 eq_refl)
    as (m & evs & Hrun & Hc & Hm).
  exists evs. injection Hm as <-. auto.
Defined.

Lemma save_without_coordinates_issues_nothing_witness :
  fst (BaseDocument.save BaseDocument.validate reply Sub_cls
         [("foo", VStr "x"); ("moo", VList [])] atomic w3)
  = Raise (ConfigurationError "Mongo client not set").
Proof.
  destruct (save_without_coordinates_issues_nothing Sub_cls reply
              [("foo", VStr "x"); ("moo", VList [])] atomic w3
              (ConfigurationError "Mongo client not set")
              eq_refl eq_refl eq_refl) as (Hrun & _).
  now rewrite Hrun.
Defined.

End WorkedMore.
